(** * The RAG travel-agent notebooks: a shallow embedding and its properties

    The repository holds one script in three copies: the plain script and
    [test1.ipynb] (the basic agent, module [Basic]) and [test2.ipynb] (the
    "reasoning" agent, module [Reasoning]).  Every statement of the scripts
    that reaches outside the interpreter (the file system, the vector
    database, the weather API, the language model, standard output) is a
    step of a state-and-exception monad: the state holds the file system
    and the log of the calls made so far, and what the outside answers is
    read from an environment [Env] that sees the whole log.  The scripts
    have no [try]; the first exception halts them.  A call of
    [requests.get] is one step; what the library sends on the wire during
    that step, following redirects, is modelled apart.  The model starts at
    Step 2: the [!pip install] line of Step 1 is a command of the notebook
    shell, not a statement of the script. *)

From Stdlib Require Import PrimFloat ZArith DecimalString.
From stdpp Require Import gmap strings list fin_maps.

Set Warnings "-inexact-float,-register-all".

Local Open Scope string_scope.
Local Open Scope Z_scope.

(** ** Python values *)

(** The values that [json.loads] builds and that the scripts pass around.
    A dict built from JSON has string keys; it is kept as the list of its
    items in insertion order. *)
Inductive pyval : Type :=
| PyNone
| PyBool (b : bool)
| PyInt (z : Z)
| PyFloat (f : float)
| PyStr (s : string)
| PyList (l : list pyval)
| PyDict (d : list (string * pyval)).

Inductive exn : Type :=
| FileExistsError
| FileNotFoundError
| IsADirectoryError
| NotADirectoryError
| AttributeError
| JSONDecodeError
| RequestException
| RuntimeError.

(** What a call gives back: a value, or the exception it raises. *)
Inductive Outcome (A : Type) : Type :=
| Ok (a : A)
| Raise (e : exn).
Arguments Ok {A} a.
Arguments Raise {A} e.

Definition is_ok {A} (o : Outcome A) : bool :=
  match o with Ok _ => true | Raise _ => false end.

Fixpoint dict_lookup (key : string) (d : list (string * pyval)) : option pyval :=
  match d with
  | [] => None
  | (k, v) :: d' => if String.eqb key k then Some v else dict_lookup key d'
  end.

(** [d.get(key, default)] on a dict. *)
Definition dict_get (d : list (string * pyval)) (key : string) (default : pyval) : pyval :=
  match dict_lookup key d with
  | Some v => v
  | None => default
  end.

(** [str(i)] for an int. *)
Definition str_int (i : Z) : string := NilZero.string_of_int (Z.to_int i).

Definition nl : string := String (Ascii.ascii_of_nat 10) "".

(** ** HTTP *)

Record Request : Type := mkRequest {
  method : string;
  url : string;
  params : list (string * pyval)
}.

(** A [requests.Response] as far as the scripts look at it: the status code
    and what [response.json()] gives (the decoded body, or the exception of
    a body that is not JSON). *)
Record Response : Type := mkResponse {
  status_code : Z;
  json : Outcome pyval
}.

(** ** The file system *)

Inductive node : Type :=
| File (content : string)
| Dir.

(** [os.path.dirname] and [os.path.basename] of a relative path. *)
Fixpoint has_slash (p : string) : bool :=
  match p with
  | EmptyString => false
  | String c rest => if Ascii.eqb c (Ascii.ascii_of_nat 47) then true else has_slash rest
  end.

Fixpoint dirname (p : string) : string :=
  match p with
  | EmptyString => EmptyString
  | String c rest => if has_slash rest then String c (dirname rest) else EmptyString
  end.

Fixpoint basename (p : string) : string :=
  match p with
  | EmptyString => EmptyString
  | String c rest => if has_slash p then basename rest else p
  end.

(** ** The libraries' handles *)

(** A LangChain [Document]: the text and the [source] of its metadata. *)
Record Document : Type := mkDocument {
  page_content : string;
  source : string
}.

(** [OllamaEmbeddings(model=...)], [Ollama(model=...)],
    [Chroma(persist_directory=..., embedding_function=...)] and
    [RetrievalQA.from_chain_type(llm=..., retriever=...)] build handles:
    records of their configuration. *)
Record OllamaEmbeddings : Type := mkOllamaEmbeddings { embedding_model : string }.
Record Ollama : Type := mkOllama { llm_model : string }.
Record Chroma : Type := mkChroma {
  persist_directory : string;
  embedding_function : OllamaEmbeddings
}.
Record RetrievalQA : Type := mkRetrievalQA {
  qa_llm : Ollama;
  qa_retriever : Chroma
}.

(** ** Calls to the outside, and the world *)

Inductive Event : Type :=
| EvMakedirs (path : string)
| EvOpenW (path : string)
| EvWrite (path text : string)
| EvListdir (path : string)
| EvLoad (path : string)
| EvFromDocuments (splits : list Document) (db : Chroma)
| EvPersist (db : Chroma)
| EvHttpGet (req : Request)
| EvLlmInvoke (llm : Ollama) (prompt : string)
| EvQaRun (qa : RetrievalQA) (query : string)
| EvPrint (text : string).

Record World : Type := mkWorld {
  fs : gmap string node;
  trace : list Event
}.

(** What is outside the scripts.  A service answers a call knowing the log of
    all earlier calls, so it may answer the same request differently the
    second time.  [py_str] is the interpreter's [str()] on values that are
    not strings, [split_documents] is [CharacterTextSplitter]. *)
Record Env : Type := mkEnv {
  py_str : pyval -> string;
  split_documents : Z -> Z -> list Document -> list Document;
  chroma_from_documents : list Event -> list Document -> Chroma -> Outcome unit;
  chroma_persist : list Event -> Chroma -> Outcome unit;
  http_reply : list Event -> Request -> Outcome Response;
  llm_reply : list Event -> Ollama -> string -> Outcome string;
  qa_reply : list Event -> RetrievalQA -> string -> Outcome string
}.

(** ** The monad of the scripts *)

Definition M (A : Type) : Type := World -> Outcome A * World.

#[global] Instance M_ret : MRet M := fun A a w => (Ok a, w).
#[global] Instance M_bind : MBind M := fun A B f m w =>
  match m w with
  | (Ok a, w') => f a w'
  | (Raise e, w') => (Raise e, w')
  end.

Definition raise {A} (e : exn) : M A := fun w => (Raise e, w).

Definition log (e : Event) (w : World) : World :=
  {| fs := fs w; trace := trace w ++ [e] |}.

(** A call to a service: the call is logged, the answer is the service's. *)
Definition call {A} (e : Event) (reply : list Event -> Outcome A) : M A :=
  fun w => (reply (trace w), log e w).

Definition set_node (path : string) (n : node) (w : World) : World :=
  {| fs := <[path := n]> (fs w); trace := trace w |}.

Fixpoint for_each {A} (l : list A) (body : A -> M unit) : M unit :=
  match l with
  | [] => mret tt
  | x :: l' => body x ≫= fun _ => for_each l' body
  end.

(** [enumerate(l)]. *)
Definition enumerate {A} (l : list A) : list (Z * A) :=
  imap (fun i x => (Z.of_nat i, x)) l.

(** The file system of the model knows two kinds of node and nothing of
    access rights, quotas or read-only mounts.  The failures below are the
    ones that come from the kind of a node; the built-ins can fail for the
    other reasons too, so a statement that a run of [makedirs], [open_w] or
    [f_write] completes holds of the model only where it is a hypothesis. *)

(** [os.makedirs(path, exist_ok=...)] for a path of one component, as
    ["rag_docs"] is: an existing directory is an error unless [exist_ok], an
    existing file is an error either way. *)
Definition makedirs (path : string) (exist_ok : bool) : M unit := fun w =>
  let w := log (EvMakedirs path) w in
  match fs w !! path with
  | None => (Ok tt, set_node path Dir w)
  | Some Dir => if exist_ok then (Ok tt, w) else (Raise FileExistsError, w)
  | Some (File _) => (Raise FileExistsError, w)
  end.

(** [open(path, "w")]: the file is created or truncated; the handle is the
    path. *)
Definition open_w (path : string) : M string := fun w =>
  let w := log (EvOpenW path) w in
  match fs w !! path with
  | Some Dir => (Raise IsADirectoryError, w)
  | _ =>
    if String.eqb (dirname path) "" then (Ok path, set_node path (File "") w)
    else match fs w !! dirname path with
         | Some Dir => (Ok path, set_node path (File "") w)
         | Some (File _) => (Raise NotADirectoryError, w)
         | None => (Raise FileNotFoundError, w)
         end
  end.

(** [f.write(text)] on a handle opened for writing: the text goes after what
    the file holds.  The file is opened in text mode; the bytes written are
    the text's for the texts of the scripts, which are ASCII and hold no
    newline. *)
Definition f_write (f : string) (text : string) : M unit := fun w =>
  let w := log (EvWrite f text) w in
  match fs w !! f with
  | Some (File c) => (Ok tt, set_node f (File (c +:+ text)) w)
  | _ => (Ok tt, set_node f (File text) w)
  end.

(** [os.listdir(path)]: the names directly under [path].  Python leaves their
    order open; here it is the order in which the map lists its keys. *)
Definition listdir (path : string) : M (list string) := fun w =>
  let w := log (EvListdir path) w in
  match fs w !! path with
  | Some Dir =>
    (Ok (basename <$> filter (fun p => dirname p = path) (map_to_list (fs w)).*1), w)
  | Some (File _) => (Raise NotADirectoryError, w)
  | None => (Raise FileNotFoundError, w)
  end.

(** *** Reading text *)

(** A Python [str] is kept as the bytes of its UTF-8 encoding, a file as its
    bytes.  [open(path)] with no mode and no encoding reads text: the bytes
    are decoded with the preferred encoding of the platform, which is taken
    to be UTF-8 (as on Linux and macOS), decoding errors are strict, and
    with universal newlines every CR LF and every other CR is read as LF. *)
Definition byte_in (lo hi : N) (b : Ascii.ascii) : bool :=
  ((lo <=? Ascii.N_of_ascii b) && (Ascii.N_of_ascii b <=? hi))%N.

Definition continuation (b : Ascii.ascii) : bool := byte_in 128 191 b.

(** The first two bytes of a sequence of three and of a sequence of four:
    no overlong form, no surrogate, nothing above U+10FFFF. *)
Definition lead3 (b0 b1 : Ascii.ascii) : bool :=
  (byte_in 224 224 b0 && byte_in 160 191 b1)
  || (byte_in 225 236 b0 && continuation b1)
  || (byte_in 237 237 b0 && byte_in 128 159 b1)
  || (byte_in 238 239 b0 && continuation b1).

Definition lead4 (b0 b1 : Ascii.ascii) : bool :=
  (byte_in 240 240 b0 && byte_in 144 191 b1)
  || (byte_in 241 243 b0 && continuation b1)
  || (byte_in 244 244 b0 && byte_in 128 143 b1).

Fixpoint utf8_valid (bytes : string) : bool :=
  match bytes with
  | EmptyString => true
  | String b0 s1 =>
    if byte_in 0 127 b0 then utf8_valid s1
    else
      match s1 with
      | EmptyString => false
      | String b1 s2 =>
        if byte_in 194 223 b0 then continuation b1 && utf8_valid s2
        else
          match s2 with
          | EmptyString => false
          | String b2 s3 =>
            if lead3 b0 b1 then continuation b2 && utf8_valid s3
            else
              match s3 with
              | EmptyString => false
              | String b3 s4 =>
                lead4 b0 b1 && continuation b2 && continuation b3 && utf8_valid s4
              end
          end
      end
  end.

Definition CR : Ascii.ascii := Ascii.ascii_of_nat 13.
Definition LF : Ascii.ascii := Ascii.ascii_of_nat 10.

Fixpoint universal_newlines (s : string) : string :=
  match s with
  | EmptyString => EmptyString
  | String c rest =>
    if Ascii.eqb c CR then
      match rest with
      | String c' rest' =>
        if Ascii.eqb c' LF then String LF (universal_newlines rest')
        else String LF (universal_newlines rest)
      | EmptyString => String LF EmptyString
      end
    else String c (universal_newlines rest)
  end.

(** What [f.read()] gives for a file of these bytes, [None] when it raises
    [UnicodeDecodeError]. *)
Definition decode_text (bytes : string) : option string :=
  if utf8_valid bytes then Some (universal_newlines bytes) else None.

(** [TextLoader(path).load()]: one document holding the file's text, with
    the path as its source.  The loader opens the file for reading as text
    and turns every exception of the reading, a path that is no regular file
    as well as bytes that do not decode, into [RuntimeError]. *)
Definition text_loader_load (path : string) : M (list Document) := fun w =>
  let w := log (EvLoad path) w in
  match fs w !! path with
  | Some (File bytes) =>
    match decode_text bytes with
    | Some text => (Ok [mkDocument text path], w)
    | None => (Raise RuntimeError, w)
    end
  | _ => (Raise RuntimeError, w)
  end.

(** [print(text)]: standard output is taken to accept every text. *)
Definition print (text : string) : M unit := call (EvPrint text) (fun _ => Ok tt).

(** [v.get(key, default)]: only a dict has the method. *)
Definition py_get (v : pyval) (key : string) (default : pyval) : M pyval :=
  match v with
  | PyDict d => mret (dict_get d key default)
  | _ => raise AttributeError
  end.

(** [response.json()]. *)
Definition response_json (response : Response) : M pyval := fun w => (json response, w).

Section Calls.
Context (E : Env).

(** A replacement field [{v}] of an f-string. *)
Definition fmt (v : pyval) : string :=
  match v with
  | PyStr s => s
  | _ => py_str E v
  end.

(** [requests.get(url, params=...)]. *)
Definition requests_get (url : string) (params : list (string * pyval)) : M Response :=
  let req := mkRequest "GET" url params in
  call (EvHttpGet req) (fun h => http_reply E h req).

(** [Chroma.from_documents(splits, embedding, persist_directory=...)]. *)
Definition Chroma_from_documents (splits : list Document) (embedding : OllamaEmbeddings)
    (persist_directory : string) : M Chroma :=
  let db := mkChroma persist_directory embedding in
  call (EvFromDocuments splits db) (fun h => chroma_from_documents E h splits db) ≫= fun _ =>
  mret db.

Definition persist (db : Chroma) : M unit :=
  call (EvPersist db) (fun h => chroma_persist E h db).

Definition llm_invoke (llm : Ollama) (prompt : string) : M string :=
  call (EvLlmInvoke llm prompt) (fun h => llm_reply E h llm prompt).

Definition qa_run (qa : RetrievalQA) (query : string) : M string :=
  call (EvQaRun qa query) (fun h => qa_reply E h qa query).

(** *** Step 2, the same in the three files *)

Definition rag_docs : list string := [
  "In Paris, it's best to carry an umbrella in spring.";
  "Always check the local metro schedule to avoid delays.";
  "Wear comfortable walking shoes when visiting tourist spots in Paris."
].

(** Save local tip documents. *)
Definition save_docs : M unit :=
  makedirs "rag_docs" true ≫= fun _ =>
  for_each (enumerate rag_docs) (fun '(i, text) =>
    f ← open_w ("rag_docs/doc_" +:+ str_int i +:+ ".txt");
    f_write f text).

(** Load and split into chunks. *)
Fixpoint load_all (files : list string) (all_docs : list Document) : M (list Document) :=
  match files with
  | [] => mret all_docs
  | file :: files' =>
    docs ← text_loader_load ("rag_docs/" +:+ file);
    load_all files' (all_docs ++ docs)
  end.

Definition load_and_split : M (list Document) :=
  files ← listdir "rag_docs";
  all_docs ← load_all files [];
  mret (split_documents E 300 50 all_docs).

(** Embed and persist to ChromaDB. *)
Definition embed_and_persist (splits : list Document) : M OllamaEmbeddings :=
  let embedding := mkOllamaEmbeddings "llama3" in
  vectordb ← Chroma_from_documents splits embedding "./chroma_db";
  persist vectordb ≫= fun _ =>
  mret embedding.

Definition step2 : M OllamaEmbeddings :=
  save_docs ≫= fun _ =>
  splits ← load_and_split;
  embed_and_persist splits.

End Calls.

(** ** The basic agent: the script and [test1.ipynb] *)

Module Basic.
Section Script.
Context (E : Env).

(** Step 3: the weather tool.  [city] has the default ["Paris"]; the body
    never reads it. *)
Definition get_weather (city : pyval) : M pyval :=
  response ← requests_get E "https://api.open-meteo.com/v1/forecast" [
    ("latitude", PyFloat 48.8566);
    ("longitude", PyFloat 2.3522);
    ("current", PyStr "temperature_2m,wind_speed_10m");
    ("temperature_unit", PyStr "celsius");
    ("windspeed_unit", PyStr "kmh")
  ];
  if negb (status_code response =? 200) then
    mret (PyDict [("error", PyStr "Failed to fetch weather data.")])
  else
    body ← response_json response;
    py_get body "current" (PyDict []).

(** Step 4: get weather data and format it into a query. *)
Definition weather_text (weather : pyval) : M string :=
  temperature ← py_get weather "temperature_2m" (PyStr "?");
  wind_speed ← py_get weather "wind_speed_10m" (PyStr "?");
  mret ("The current temperature in Paris is " +:+ fmt E temperature +:+ "°C "
        +:+ "with wind speed " +:+ fmt E wind_speed +:+ " km/h.").

Definition query (weather_text : string) : string :=
  "Given this weather: " +:+ weather_text +:+ ", what travel tips do you have for Paris?".

Definition qa (embedding : OllamaEmbeddings) : RetrievalQA :=
  let llm := mkOllama "llama3" in
  let retriever := mkChroma "./chroma_db" embedding in
  mkRetrievalQA llm retriever.

Definition step4 (embedding : OllamaEmbeddings) : M unit :=
  weather ← get_weather (PyStr "Paris");
  weather_text ← weather_text weather;
  final_response ← qa_run E (qa embedding) (query weather_text);
  print ("🤖 AI Agent Response:" +:+ nl);;
  print final_response.

Definition script : M unit :=
  embedding ← step2 E;
  step4 embedding.

End Script.
End Basic.

(** ** The reasoning agent: [test2.ipynb] *)

Module Reasoning.
Section Script.
Context (E : Env).

(** The weather tool takes the coordinates. *)
Definition get_weather (lat lon : pyval) : M pyval :=
  response ← requests_get E "https://api.open-meteo.com/v1/forecast" [
    ("latitude", lat);
    ("longitude", lon);
    ("current", PyStr "temperature_2m,wind_speed_10m");
    ("temperature_unit", PyStr "celsius");
    ("windspeed_unit", PyStr "kmh")
  ];
  if negb (status_code response =? 200) then
    mret (PyDict [("error", PyStr "API failed.")])
  else
    body ← response_json response;
    py_get body "current" (PyDict []).

Definition llm : Ollama := mkOllama "llama3".

(** The reasoning prompt. *)
Definition question : string :=
  "You are a travel assistant. A user asks: 'What should I know before going to Paris today?'." +:+ nl
  +:+ "You have access to background tips and a weather tool you may use if helpful." +:+ nl
  +:+ "If you decide to call the weather tool, determine the correct latitude and longitude for the city." +:+ nl
  +:+ "Answer step-by-step with reasoning.".

Definition reasoning_cell : M string :=
  response ← llm_invoke E llm question;
  print "🤔 LLM Initial Reasoning:";;
  print response;;
  mret response.

Definition weather_text (weather : pyval) : M string :=
  temperature ← py_get weather "temperature_2m" (PyStr "?");
  wind_speed ← py_get weather "wind_speed_10m" (PyStr "?");
  mret ("Temperature: " +:+ fmt E temperature +:+ "°C, Wind: " +:+ fmt E wind_speed +:+ " km/h.").

(** The simulated tool call: the coordinates are written in the cell. *)
Definition tool_cell : M string :=
  let '(lat, lon) := (PyFloat 48.8566, PyFloat 2.3522) in
  weather ← get_weather lat lon;
  weather_text ← weather_text weather;
  print (nl +:+ "🌦️ Simulated Weather Tool Output:");;
  print weather_text;;
  mret weather_text.

Definition query (weather_text : string) : string :=
  "The weather in Paris today is: " +:+ weather_text +:+ "." +:+ nl
  +:+ "Based on this and local travel tips, what should a traveler know?".

Definition qa (embedding : OllamaEmbeddings) : RetrievalQA :=
  let retriever := mkChroma "./chroma_db" embedding in
  mkRetrievalQA llm retriever.

Definition final_cell (embedding : OllamaEmbeddings) (weather_text : string) : M unit :=
  final_answer ← qa_run E (qa embedding) (query weather_text);
  print (nl +:+ "🧠 Final Agent Response:");;
  print final_answer.

(** The cells, run top to bottom. *)
Definition script : M unit :=
  embedding ← step2 E;
  response ← reasoning_cell;
  weather_text ← tool_cell;
  final_cell embedding weather_text.

End Script.
End Reasoning.

(** ** [requests.get] on the wire *)

(** The scripts call [requests.get(url, params=params)] and leave
    [allow_redirects] at its default, [True]: the library sends the request
    and, as long as the answer is a redirect (a status of [REDIRECT_STATI]
    with a [Location] header that is not empty), sends a GET to the target,
    up to [DEFAULT_REDIRECT_LIMIT] times; one more redirect raises
    [TooManyRedirects], a [RequestException].  The query string is part of
    the first URL only: a request that follows a redirect goes to the target
    as it is.  The call returns the last response. *)

(** One answer from the network: the response and the URL its [Location]
    header resolves to, when it has the header. *)
Record Answer : Type := mkAnswer {
  answer_response : Response;
  location : option string
}.

(** A server answers a request knowing the log of the script's calls so far
    and the requests already sent within the present call. *)
Definition Server : Type := list Event -> list Request -> Request -> Outcome Answer.

Definition REDIRECT_STATI : list Z := [301; 302; 303; 307; 308].
Definition DEFAULT_REDIRECT_LIMIT : nat := 30.

Definition get_redirect_target (a : Answer) : option string :=
  match location a with
  | Some target =>
    if bool_decide (status_code (answer_response a) ∈ REDIRECT_STATI)
       && negb (String.eqb target "")
    then Some target else None
  | None => None
  end.

(** The response the call returns and the requests it has sent, in order. *)
Fixpoint resolve_redirects (server : Server) (history : list Event) (limit : nat)
    (sent : list Request) (req : Request) : Outcome Response * list Request :=
  match server history sent req with
  | Raise e => (Raise e, (sent ++ [req])%list)
  | Ok a =>
    match get_redirect_target a with
    | None => (Ok (answer_response a), (sent ++ [req])%list)
    | Some target =>
      match limit with
      | O => (Raise RequestException, (sent ++ [req])%list)
      | S limit' =>
        resolve_redirects server history limit' (sent ++ [req])%list (mkRequest "GET" target [])
      end
    end
  end.

Definition session_get (server : Server) (history : list Event) (req : Request)
    : Outcome Response * list Request :=
  resolve_redirects server history DEFAULT_REDIRECT_LIMIT [] req.

(** The environment [E] with the weather service reached through the
    library: what [requests.get] returns is what the redirects end in. *)
Definition over_the_wire (server : Server) (E : Env) : Env := {|
  py_str := py_str E;
  split_documents := split_documents E;
  chroma_from_documents := chroma_from_documents E;
  chroma_persist := chroma_persist E;
  http_reply := fun history req => (session_get server history req).1;
  llm_reply := llm_reply E;
  qa_reply := qa_reply E
|}.

(** The requests that went over the wire for the calls [tr] logged after
    [history]. *)
Fixpoint wire_traffic (server : Server) (history tr : list Event) : list Request :=
  match tr with
  | [] => []
  | e :: tr' =>
    (match e with
     | EvHttpGet req => (session_get server history req).2
     | _ => []
     end ++ wire_traffic server (history ++ [e]) tr')%list
  end.

(** [sent] is the request [req] followed by one GET for each redirect: every
    request after the first went to the target of the redirect that answered
    the request before it, and there are at most [DEFAULT_REDIRECT_LIMIT] of
    them. *)
Definition redirect_chain (server : Server) (history : list Event) (req : Request)
    (sent : list Request) : Prop :=
  ∃ follow_ups,
    sent = req :: follow_ups ∧
    (length follow_ups ≤ DEFAULT_REDIRECT_LIMIT)%nat ∧
    ∀ i r, follow_ups !! i = Some r →
      ∃ previous a,
        sent !! i = Some previous ∧
        server history (take i sent) previous = Ok a ∧
        get_redirect_target a = Some (url r) ∧
        r = mkRequest "GET" (url r) [].

(** * The vocabulary of the statements *)

(** ** Requests, results and the log *)

(** The request of the weather tool for given coordinates. *)
Definition weather_request (lat lon : pyval) : Request :=
  mkRequest "GET" "https://api.open-meteo.com/v1/forecast" [
    ("latitude", lat);
    ("longitude", lon);
    ("current", PyStr "temperature_2m,wind_speed_10m");
    ("temperature_unit", PyStr "celsius");
    ("windspeed_unit", PyStr "kmh")
  ].

Definition paris_request : Request := weather_request (PyFloat 48.8566) (PyFloat 2.3522).

(** The error marker dicts of the two variants. *)
Definition basic_error_marker : pyval := PyDict [("error", PyStr "Failed to fetch weather data.")].
Definition reasoning_error_marker : pyval := PyDict [("error", PyStr "API failed.")].

(** What the tool makes of the service's answer. *)
Definition tool_result (marker : pyval) (reply : Outcome Response) : Outcome pyval :=
  match reply with
  | Raise e => Raise e
  | Ok response =>
    if negb (status_code response =? 200) then Ok marker
    else match json response with
         | Raise e => Raise e
         | Ok (PyDict d) => Ok (dict_get d "current" (PyDict []))
         | Ok _ => Raise AttributeError
         end
  end.

(** The calls a run added to the log. *)
Definition new_events (w w' : World) : list Event := drop (length (trace w)) (trace w').

Definition http_requests (tr : list Event) : list Request :=
  omap (fun e => match e with EvHttpGet req => Some req | _ => None end) tr.

Definition file_writes (tr : list Event) : list (string * string) :=
  omap (fun e => match e with EvWrite path text => Some (path, text) | _ => None end) tr.

(** ** The calls of a run, sorted *)

(** The three kinds of interaction with a service outside the machine. *)
Inductive interaction : Type :=
| EmbedStore
| HttpFetch
| PromptGenerate.

#[global] Instance interaction_eq_dec : EqDecision interaction.
Proof. solve_decision. Defined.

(** The file system and standard output are local; every other call reaches
    a service.  [Chroma.from_documents] and [persist] together embed and
    store the documents. *)
Definition interaction_of (e : Event) : option interaction :=
  match e with
  | EvFromDocuments _ _ | EvPersist _ => Some EmbedStore
  | EvHttpGet _ => Some HttpFetch
  | EvLlmInvoke _ _ | EvQaRun _ _ => Some PromptGenerate
  | EvMakedirs _ | EvOpenW _ | EvWrite _ _ | EvListdir _ | EvLoad _ | EvPrint _ => None
  end.

Definition service_calls (tr : list Event) : list Event :=
  filter (fun e => is_Some (interaction_of e)) tr.

(** Calls of one kind that follow each other make one interaction. *)
Fixpoint collapse (l : list interaction) : list interaction :=
  match l with
  | [] => []
  | a :: l' =>
    match l' with
    | b :: _ => if decide (a = b) then collapse l' else a :: collapse l'
    | [] => [a]
    end
  end.

Definition interactions (tr : list Event) : list interaction :=
  collapse (omap interaction_of tr).

Definition is_fs_event (e : Event) : Prop :=
  match e with
  | EvMakedirs _ | EvOpenW _ | EvWrite _ _ | EvListdir _ | EvLoad _ => True
  | _ => False
  end.

(** ** The parts of the scripts the proofs go through *)

(** One round of the loop: [with open(path, "w") as f: f.write(text)]. *)
Definition write_doc (doc : string * string) : M unit :=
  f ← open_w doc.1;
  f_write f doc.2.

(** The files of the loop and what goes into each. *)
Definition doc_files : list (string * string) :=
  zip ["rag_docs/doc_0.txt"; "rag_docs/doc_1.txt"; "rag_docs/doc_2.txt"] rag_docs.

(** The loop read on the file system alone: the outcome, the files after it
    and the calls it makes. *)
Fixpoint write_all (docs : list (string * string)) (m : gmap string node)
    : Outcome unit * gmap string node * list Event :=
  match docs with
  | [] => (Ok tt, m, [])
  | (path, text) :: docs' =>
    match m !! path with
    | Some Dir => (Raise IsADirectoryError, m, [EvOpenW path])
    | _ =>
      let '(r, m', evs) := write_all docs' (<[path := File text]> m) in
      (r, m', EvOpenW path :: EvWrite path text :: evs)
    end
  end.

(** The file system after the directory is made. *)
Definition with_docs_dir (m : gmap string node) : gmap string node :=
  match m !! "rag_docs" with
  | None => <["rag_docs" := Dir]> m
  | Some _ => m
  end.

(** Saving, loading and splitting: the part of step 2 that stays on the
    machine. *)
Definition prepare (E : Env) : M (list Document) :=
  save_docs;; load_and_split E.

(** The vector database of step 2. *)
Definition vectordb : Chroma := mkChroma "./chroma_db" (mkOllamaEmbeddings "llama3").

(** The text the basic agent makes of a dict, and the reasoning agent's. *)
Definition basic_text (E : Env) (d : list (string * pyval)) : string :=
  "The current temperature in Paris is " +:+ fmt E (dict_get d "temperature_2m" (PyStr "?"))
  +:+ "°C with wind speed " +:+ fmt E (dict_get d "wind_speed_10m" (PyStr "?")) +:+ " km/h.".

Definition reasoning_text (E : Env) (d : list (string * pyval)) : string :=
  "Temperature: " +:+ fmt E (dict_get d "temperature_2m" (PyStr "?"))
  +:+ "°C, Wind: " +:+ fmt E (dict_get d "wind_speed_10m" (PyStr "?")) +:+ " km/h.".

(** ** Sample environments *)

(** A [str()] for the sample runs. *)
Definition sample_str (v : pyval) : string :=
  match v with
  | PyNone => "None"
  | PyBool true => "True"
  | PyBool false => "False"
  | PyInt z => str_int z
  | _ => "<object>"
  end.

(** An environment whose weather service always gives [reply], whose language
    model always says [llm_text], and whose other services succeed. *)
Definition sample_env (reply : Outcome Response) (llm_text : string) : Env := {|
  py_str := sample_str;
  split_documents := fun _ _ docs => docs;
  chroma_from_documents := fun _ _ _ => Ok tt;
  chroma_persist := fun _ _ => Ok tt;
  http_reply := fun _ _ => reply;
  llm_reply := fun _ _ _ => Ok llm_text;
  qa_reply := fun _ _ _ => Ok "Carry an umbrella."
|}.

Definition empty_world : World := mkWorld ∅ [].

Definition paris_weather : Response :=
  mkResponse 200 (Ok (PyDict [
    ("latitude", PyInt 48);
    ("current", PyDict [("temperature_2m", PyInt 15); ("wind_speed_10m", PyInt 9)])
  ])).

Definition service_unavailable : Response := mkResponse 503 (Raise JSONDecodeError).

(** A service that fails the first request and would serve the second: the
    tool returns the marker after the one request. *)
Definition flaky_env : Env := {|
  py_str := sample_str;
  split_documents := fun _ _ docs => docs;
  chroma_from_documents := fun _ _ _ => Ok tt;
  chroma_persist := fun _ _ => Ok tt;
  http_reply := fun history _ =>
    match http_requests history with
    | [] => Ok service_unavailable
    | _ => Ok paris_weather
    end;
  llm_reply := fun _ _ _ => Ok "";
  qa_reply := fun _ _ _ => Ok ""
|}.

(** A service that has moved: the first request of a call is answered with
    a redirect to the new address, the request to the new address with the
    weather. *)
Definition moved_server : Server := fun _ sent _ =>
  match sent with
  | [] => Ok (mkAnswer (mkResponse 302 (Raise JSONDecodeError))
                (Some "https://api.open-meteo.com/v2/forecast"))
  | _ => Ok (mkAnswer paris_weather None)
  end.

(** A service that answers every request with status 503. *)
Definition failing_server : Server := fun _ _ _ => Ok (mkAnswer service_unavailable None).

(** Status 200, and the [current] object of the body is the marker itself. *)
Definition marker_in_body : Response :=
  mkResponse 200 (Ok (PyDict [("current", basic_error_marker)])).

(** Status 200 with a body that is not JSON. *)
Definition html_body : Response := mkResponse 200 (Raise JSONDecodeError).

(** Status 200 with a JSON body that is an array. *)
Definition array_body : Response := mkResponse 200 (Ok (PyList [])).

(** Status 200 with a JSON object that has no [current]. *)
Definition no_current : Response := mkResponse 200 (Ok (PyDict [("latitude", PyInt 48)])).

(** ** Loading the documents, and what a run prints *)

(** The text of a node: that of a regular file whose bytes decode. *)
Definition node_text (n : node) : option string :=
  match n with
  | File bytes => decode_text bytes
  | Dir => None
  end.

(** The text read at a path, when there is one. *)
Definition text_at (m : gmap string node) (p : string) : option string :=
  m !! p ≫= node_text.

(** The paths directly under [rag_docs], in the order of the listing. *)
Definition rag_listing (m : gmap string node) : list string :=
  filter (fun p => dirname p = "rag_docs") (map_to_list m).*1.

(** Every entry directly under [rag_docs] is a regular file that reads as
    text. *)
Definition only_text_in_rag_docs (m : gmap string node) : Prop :=
  map_Forall (fun p n => dirname p = "rag_docs" → is_Some (node_text n)) m.

(** No entry directly under [rag_docs] besides the three documents. *)
Definition only_docs_in_rag_docs (m : gmap string node) : Prop :=
  map_Forall (fun p (_ : node) => dirname p = "rag_docs" → p ∈ doc_files.*1) m.

(** What [TextLoader] makes of one name of the listing. *)
Definition read_doc (m : gmap string node) (file : string) : option Document :=
  match text_at m ("rag_docs/" +:+ file) with
  | Some text => Some (mkDocument text ("rag_docs/" +:+ file))
  | None => None
  end.

(** The documents of a listing, for the paths that read as text. *)
Definition loaded (m : gmap string node) (paths : list string) : list Document :=
  (fun p => mkDocument (default "" (text_at m p)) p) <$> paths.

(** The documents of the three tips. *)
Definition tip_documents : list Document :=
  imap (fun i text => mkDocument text ("rag_docs/doc_" +:+ str_int (Z.of_nat i) +:+ ".txt")) rag_docs.

Definition prints (tr : list Event) : list string :=
  omap (fun e => match e with EvPrint text => Some text | _ => None end) tr.

Definition qa_queries (tr : list Event) : list string :=
  omap (fun e => match e with EvQaRun _ query => Some query | _ => None end) tr.

(** A directory with a sub-directory beside the documents. *)
Definition world_with_subdir : World :=
  mkWorld (<["rag_docs/notes" := Dir]> (<["rag_docs" := Dir]> ∅)) [].

(** A directory that already holds a file of an earlier session. *)
Definition world_with_stale_file : World :=
  mkWorld (<["rag_docs/old.txt" := File "Visit the Louvre on Monday."]> (<["rag_docs" := Dir]> ∅)) [].

(** A directory that holds a file with the line ends of another system. *)
Definition dos_text : string :=
  "Visit the Louvre." +:+ String CR (String LF "Book ahead.").

Definition world_with_dos_file : World :=
  mkWorld (<["rag_docs/dos.txt" := File dos_text]> (<["rag_docs" := Dir]> ∅)) [].

(** A directory that holds a file which is not text: the byte 255 is in no
    UTF-8 sequence. *)
Definition world_with_binary_file : World :=
  mkWorld (<["rag_docs/cover.jpg" := File (String (Ascii.ascii_of_nat 255) "")]>
             (<["rag_docs" := Dir]> ∅)) [].

(** A directory [rag_docs] in which the path of the second document is a
    directory. *)
Definition world_with_directory_for_document : World :=
  mkWorld (<["rag_docs/doc_1.txt" := Dir]> (<["rag_docs" := Dir]> ∅)) [].

(** The worlds of a run of the reasoning notebook: after step 2, after the
    reasoning cell, after the tool cell. *)
Definition after_step2 (E : Env) (w : World) : World := (step2 E w).2.
Definition after_reasoning (E : Env) (w : World) : World :=
  (Reasoning.reasoning_cell E (after_step2 E w)).2.
Definition after_tool (E : Env) (w : World) : World :=
  (Reasoning.tool_cell E (after_reasoning E w)).2.

(** A weather service that cannot be reached. *)
Definition unreachable_env : Env := sample_env (Raise RequestException) "".

(** Status 200 with [null] for the [current] object. *)
Definition null_current : Response := mkResponse 200 (Ok (PyDict [("current", PyNone)])).

(** Status 200 with texts for the two values. *)
Definition text_weather : Response :=
  mkResponse 200 (Ok (PyDict [
    ("current", PyDict [("time", PyStr "2024-05-01T12:00");
                        ("temperature_2m", PyStr "15.3");
                        ("wind_speed_10m", PyStr "9.7")])
  ])).

(** * Properties *)

(** ** Running the weather tool *)

Lemma basic_get_weather_run E city w :
  Basic.get_weather E city w =
    (tool_result basic_error_marker (http_reply E (trace w) paris_request),
     log (EvHttpGet paris_request) w).
Proof.
  unfold Basic.get_weather, requests_get, call, mbind, M_bind, tool_result.
  unfold paris_request, weather_request.
  destruct (http_reply E (trace w) _) as [response|e]; [|reflexivity].
  destruct (negb (status_code response =? 200)); [reflexivity|].
  unfold response_json.
  destruct (json response) as [body|e]; [|reflexivity].
  destruct body; reflexivity.
Qed.

Lemma reasoning_get_weather_run E lat lon w :
  Reasoning.get_weather E lat lon w =
    (tool_result reasoning_error_marker (http_reply E (trace w) (weather_request lat lon)),
     log (EvHttpGet (weather_request lat lon)) w).
Proof.
  unfold Reasoning.get_weather, requests_get, call, mbind, M_bind, tool_result.
  unfold weather_request.
  destruct (http_reply E (trace w) _) as [response|e]; [|reflexivity].
  destruct (negb (status_code response =? 200)); [reflexivity|].
  unfold response_json.
  destruct (json response) as [body|e]; [|reflexivity].
  destruct body; reflexivity.
Qed.

Lemma tool_result_failed marker response :
  status_code response ≠ 200 → tool_result marker (Ok response) = Ok marker.
Proof.
  intros Hne. unfold tool_result.
  by destruct (Z.eqb_spec (status_code response) 200).
Qed.

Lemma tool_result_200 marker response :
  status_code response = 200 →
  tool_result marker (Ok response) =
    match json response with
    | Raise e => Raise e
    | Ok (PyDict d) => Ok (dict_get d "current" (PyDict []))
    | Ok _ => Raise AttributeError
    end.
Proof. intros Heq. unfold tool_result. by rewrite Heq. Qed.

Lemma new_events_log e w : new_events w (log e w) = [e].
Proof. unfold new_events, log. simpl. by rewrite drop_app_length. Qed.

(** ** The weather tool *)

(** C1, as stated, fails: a 200 response whose [current] object is the error
    marker makes [get_weather] return the marker, and a 200 response whose
    body is not JSON makes it raise. *)
Lemma basic_get_weather_marker_on_200 :
  status_code marker_in_body = 200 ∧
  (Basic.get_weather (sample_env (Ok marker_in_body) "") (PyStr "Paris") empty_world).1
    = Ok basic_error_marker ∧
  status_code html_body = 200 ∧
  (Basic.get_weather (sample_env (Ok html_body) "") (PyStr "Paris") empty_world).1
    = Raise JSONDecodeError.
Proof. repeat split; reflexivity. Qed.

(** C1, amended: [get_weather] returns the error marker whenever the status
    code is not 200.  On status 200 with a body that decodes to a JSON object
    it returns the object's [current] value ([{}] when the key is absent); a
    200 response with any other body makes it raise.  So a returned marker
    means a status other than 200, or a body whose [current] value is the
    marker. *)
Theorem basic_get_weather_by_status E city w response :
  http_reply E (trace w) paris_request = Ok response →
  (status_code response ≠ 200 →
     (Basic.get_weather E city w).1 = Ok basic_error_marker) ∧
  (status_code response = 200 → ∀ d, json response = Ok (PyDict d) →
     (Basic.get_weather E city w).1 = Ok (dict_get d "current" (PyDict []))) ∧
  (status_code response = 200 → (∀ d, json response ≠ Ok (PyDict d)) →
     ∃ e, (Basic.get_weather E city w).1 = Raise e) ∧
  ((Basic.get_weather E city w).1 = Ok basic_error_marker →
     status_code response ≠ 200 ∨
     ∃ d, json response = Ok (PyDict d) ∧ dict_lookup "current" d = Some basic_error_marker).
Proof.
  intros Hreply. rewrite basic_get_weather_run, Hreply. cbn [fst].
  repeat split.
  - apply tool_result_failed.
  - intros H200 d Hd. by rewrite tool_result_200, Hd.
  - intros H200 Hshape. rewrite tool_result_200 by done.
    destruct (json response) as [body|e]; [|by eexists].
    destruct body; try by eexists.
    by destruct (Hshape d).
  - intros Hmarker.
    destruct (decide (status_code response = 200)) as [H200|]; [right|by left].
    rewrite tool_result_200 in Hmarker by done.
    destruct (json response) as [body|e]; [|done].
    destruct body; try done.
    exists d. split; [done|].
    unfold dict_get in Hmarker.
    destruct (dict_lookup "current" d); [congruence|done].
Qed.

Lemma basic_get_weather_by_status_witness :
  (Basic.get_weather (sample_env (Ok service_unavailable) "") (PyStr "Paris") empty_world).1
    = Ok basic_error_marker ∧
  (Basic.get_weather (sample_env (Ok paris_weather) "") (PyStr "Paris") empty_world).1
    = Ok (PyDict [("temperature_2m", PyInt 15); ("wind_speed_10m", PyInt 9)]).
Proof.
  split.
  - apply (basic_get_weather_by_status (sample_env (Ok service_unavailable) "")
             (PyStr "Paris") empty_world service_unavailable).
    + reflexivity.
    + simpl. lia.
  - apply (proj1 (proj2 (basic_get_weather_by_status (sample_env (Ok paris_weather) "")
             (PyStr "Paris") empty_world paris_weather eq_refl)) eq_refl _ eq_refl).
Defined.

(** C9, as stated, fails: a 200 response whose JSON body is an array holds no
    [current] key, and [get_weather] raises on it. *)
Lemma get_weather_raises_on_array :
  status_code array_body = 200 ∧
  json array_body = Ok (PyList []) ∧
  (Basic.get_weather (sample_env (Ok array_body) "") (PyStr "Paris") empty_world).1
    = Raise AttributeError ∧
  (Reasoning.get_weather (sample_env (Ok array_body) "") (PyFloat 48.8566) (PyFloat 2.3522)
     empty_world).1
    = Raise AttributeError.
Proof. repeat split; reflexivity. Qed.

(** C9, amended: for every 200 response whose body is a JSON object without a
    [current] key, [get_weather] returns the empty dict; when the body is
    JSON of another shape (array, string, number, boolean, null) it raises
    [AttributeError].  The success branch is total over JSON objects only. *)
Theorem get_weather_without_current E w response :
  status_code response = 200 →
  (∀ d, json response = Ok (PyDict d) → dict_lookup "current" d = None →
     (∀ city, http_reply E (trace w) paris_request = Ok response →
        (Basic.get_weather E city w).1 = Ok (PyDict [])) ∧
     (∀ lat lon, http_reply E (trace w) (weather_request lat lon) = Ok response →
        (Reasoning.get_weather E lat lon w).1 = Ok (PyDict []))) ∧
  (∀ body, json response = Ok body → (∀ d, body ≠ PyDict d) →
     (∀ city, http_reply E (trace w) paris_request = Ok response →
        (Basic.get_weather E city w).1 = Raise AttributeError) ∧
     (∀ lat lon, http_reply E (trace w) (weather_request lat lon) = Ok response →
        (Reasoning.get_weather E lat lon w).1 = Raise AttributeError)).
Proof.
  intros H200. split.
  - intros d Hd Hnone.
    assert (∀ marker, tool_result marker (Ok response) = Ok (PyDict [])) as Hres.
    { intros marker. rewrite tool_result_200, Hd by done.
      unfold dict_get. by rewrite Hnone. }
    split.
    + intros city Hreply. rewrite basic_get_weather_run, Hreply. apply Hres.
    + intros lat lon Hreply. rewrite reasoning_get_weather_run, Hreply. apply Hres.
  - intros body Hbody Hshape.
    assert (∀ marker, tool_result marker (Ok response) = Raise AttributeError) as Hres.
    { intros marker. rewrite tool_result_200, Hbody by done.
      destruct body; try done. by destruct (Hshape d). }
    split.
    + intros city Hreply. rewrite basic_get_weather_run, Hreply. apply Hres.
    + intros lat lon Hreply. rewrite reasoning_get_weather_run, Hreply. apply Hres.
Qed.

Lemma get_weather_without_current_witness :
  (Basic.get_weather (sample_env (Ok no_current) "") (PyStr "Paris") empty_world).1
    = Ok (PyDict []) ∧
  (Reasoning.get_weather (sample_env (Ok no_current) "") (PyFloat 48.8566) (PyFloat 2.3522)
     empty_world).1
    = Ok (PyDict []).
Proof.
  pose proof (proj1 (get_weather_without_current (sample_env (Ok no_current) "")
                       empty_world no_current eq_refl) _ eq_refl eq_refl) as [Hb Hr].
  split.
  - exact (Hb (PyStr "Paris") eq_refl).
  - exact (Hr (PyFloat 48.8566) (PyFloat 2.3522) eq_refl).
Defined.

(** C2, as stated, fails in [test2.ipynb]: there [get_weather] sends the
    coordinates it is given, so two calls with different arguments issue
    different requests. *)
Lemma reasoning_get_weather_sends_its_arguments :
  new_events empty_world
    (Reasoning.get_weather (sample_env (Ok paris_weather) "") (PyFloat 0) (PyFloat 0) empty_world).2
    = [EvHttpGet (weather_request (PyFloat 0) (PyFloat 0))] ∧
  dict_lookup "latitude" (params (weather_request (PyFloat 0) (PyFloat 0))) = Some (PyFloat 0) ∧
  PyFloat 0 ≠ PyFloat 48.8566 ∧
  new_events empty_world
    (Reasoning.get_weather (sample_env (Ok paris_weather) "") (PyFloat 0) (PyFloat 0) empty_world).2
    ≠ new_events empty_world
        (Reasoning.get_weather (sample_env (Ok paris_weather) "")
           (PyFloat 48.8566) (PyFloat 2.3522) empty_world).2.
Proof.
  split; [reflexivity|]. split; [reflexivity|]. split.
  - intros Heq.
    apply (f_equal (fun v => match v with PyFloat f => PrimFloat.ltb f 1 | _ => false end)) in Heq.
    vm_compute in Heq. discriminate.
  - intros Heq.
    apply (f_equal (fun evs =>
             match evs with
             | [EvHttpGet req] =>
               match dict_lookup "latitude" (params req) with
               | Some (PyFloat f) => PrimFloat.ltb f 1
               | _ => false
               end
             | _ => false
             end)) in Heq.
    vm_compute in Heq. discriminate.
Qed.

(** C2, amended: in the script and [test1.ipynb] the coordinates are
    hardcoded: for every argument [get_weather] sends the one request with
    latitude 48.8566 and longitude 2.3522, so two calls with different
    arguments issue identical requests.  In [test2.ipynb] [get_weather] sends
    the latitude and longitude it is given. *)
Theorem get_weather_coordinates E w :
  (∀ city, new_events w (Basic.get_weather E city w).2 = [EvHttpGet paris_request]) ∧
  (∀ city1 city2,
     new_events w (Basic.get_weather E city1 w).2
     = new_events w (Basic.get_weather E city2 w).2) ∧
  dict_lookup "latitude" (params paris_request) = Some (PyFloat 48.8566) ∧
  dict_lookup "longitude" (params paris_request) = Some (PyFloat 2.3522) ∧
  (∀ lat lon, ∃ req,
     new_events w (Reasoning.get_weather E lat lon w).2 = [EvHttpGet req] ∧
     dict_lookup "latitude" (params req) = Some lat ∧
     dict_lookup "longitude" (params req) = Some lon).
Proof.
  split; [|split; [|split; [|split]]].
  - intros city. rewrite basic_get_weather_run. apply new_events_log.
  - intros city1 city2. by rewrite !basic_get_weather_run.
  - reflexivity.
  - reflexivity.
  - intros lat lon. exists (weather_request lat lon).
    rewrite reasoning_get_weather_run. split; [apply new_events_log|done].
Qed.

(** C3: every call of [get_weather] issues one GET to the forecast endpoint
    with exactly the five parameters, and on a 200 response whose JSON object
    has a [current] value, that value is the result. *)
Theorem get_weather_request_and_result E w :
  (∀ city, new_events w (Basic.get_weather E city w).2 =
     [EvHttpGet {| method := "GET";
                   url := "https://api.open-meteo.com/v1/forecast";
                   params := [("latitude", PyFloat 48.8566);
                              ("longitude", PyFloat 2.3522);
                              ("current", PyStr "temperature_2m,wind_speed_10m");
                              ("temperature_unit", PyStr "celsius");
                              ("windspeed_unit", PyStr "kmh")] |}]) ∧
  (∀ lat lon, new_events w (Reasoning.get_weather E lat lon w).2 =
     [EvHttpGet {| method := "GET";
                   url := "https://api.open-meteo.com/v1/forecast";
                   params := [("latitude", lat);
                              ("longitude", lon);
                              ("current", PyStr "temperature_2m,wind_speed_10m");
                              ("temperature_unit", PyStr "celsius");
                              ("windspeed_unit", PyStr "kmh")] |}]) ∧
  (∀ response d current,
     status_code response = 200 → json response = Ok (PyDict d) →
     dict_lookup "current" d = Some current →
     (∀ city, http_reply E (trace w) paris_request = Ok response →
        (Basic.get_weather E city w).1 = Ok current) ∧
     (∀ lat lon, http_reply E (trace w) (weather_request lat lon) = Ok response →
        (Reasoning.get_weather E lat lon w).1 = Ok current)).
Proof.
  split; [|split].
  - intros city. rewrite basic_get_weather_run. apply new_events_log.
  - intros lat lon. rewrite reasoning_get_weather_run. apply new_events_log.
  - intros response d current H200 Hd Hcurrent.
    assert (∀ marker, tool_result marker (Ok response) = Ok current) as Hres.
    { intros marker. rewrite tool_result_200, Hd by done.
      unfold dict_get. by rewrite Hcurrent. }
    split.
    + intros city Hreply. rewrite basic_get_weather_run, Hreply. apply Hres.
    + intros lat lon Hreply. rewrite reasoning_get_weather_run, Hreply. apply Hres.
Qed.

Lemma get_weather_request_and_result_witness :
  (Basic.get_weather (sample_env (Ok paris_weather) "") (PyStr "Paris") empty_world).1
    = Ok (PyDict [("temperature_2m", PyInt 15); ("wind_speed_10m", PyInt 9)]) ∧
  (Reasoning.get_weather (sample_env (Ok paris_weather) "") (PyFloat 48.8566) (PyFloat 2.3522)
     empty_world).1
    = Ok (PyDict [("temperature_2m", PyInt 15); ("wind_speed_10m", PyInt 9)]).
Proof.
  pose proof (proj2 (proj2 (get_weather_request_and_result
                              (sample_env (Ok paris_weather) "") empty_world))
                paris_weather _ _ eq_refl eq_refl eq_refl) as [Hb Hr].
  split.
  - exact (Hb (PyStr "Paris") eq_refl).
  - exact (Hr (PyFloat 48.8566) (PyFloat 2.3522) eq_refl).
Defined.

(** *** On the wire *)

Lemma resolve_redirects_chain server history limit sent req :
  ∃ follow_ups,
    (resolve_redirects server history limit sent req).2 = (sent ++ req :: follow_ups)%list ∧
    (length follow_ups ≤ limit)%nat ∧
    ∀ i r, follow_ups !! i = Some r →
      ∃ previous a,
        (req :: follow_ups) !! i = Some previous ∧
        server history (sent ++ take i (req :: follow_ups))%list previous = Ok a ∧
        get_redirect_target a = Some (url r) ∧
        r = mkRequest "GET" (url r) [].
Proof.
  revert sent req. induction limit as [|limit IH]; intros sent req.
  - exists []. cbn [resolve_redirects].
    split; [|split; [done|intros i r Hi; by rewrite lookup_nil in Hi]].
    destruct (server history sent req) as [a|e]; [|done].
    by destruct (get_redirect_target a).
  - cbn [resolve_redirects].
    destruct (server history sent req) as [a|e] eqn:Hanswer;
      [destruct (get_redirect_target a) as [target|] eqn:Htarget|].
    + destruct (IH (sent ++ [req])%list (mkRequest "GET" target []))
        as (follow_ups & Hsent & Hlength & Hchain).
      exists (mkRequest "GET" target [] :: follow_ups).
      split; [by rewrite Hsent, <- app_assoc|]. split; [cbn; lia|].
      intros [|i] r Hi.
      * injection Hi as <-. exists req, a. cbn [take]. by rewrite app_nil_r.
      * destruct (Hchain i r Hi) as (previous & a' & Hprevious & Hanswer' & Htarget' & Hr).
        exists previous, a'. split; [done|]. split; [|done].
        cbn [take]. by rewrite cons_middle, app_assoc.
    + exists []. split; [done|]. split; [cbn; lia|].
      intros i r Hi. by rewrite lookup_nil in Hi.
    + exists []. split; [done|]. split; [cbn; lia|].
      intros i r Hi. by rewrite lookup_nil in Hi.
Qed.

Lemma session_get_chain server history req :
  redirect_chain server history req (session_get server history req).2.
Proof.
  destruct (resolve_redirects_chain server history DEFAULT_REDIRECT_LIMIT [] req)
    as (follow_ups & Hsent & Hlength & Hchain).
  exists follow_ups. unfold session_get. rewrite Hsent. by split.
Qed.

Lemma session_get_first server history req :
  session_get server history req =
    match server history [] req with
    | Raise e => (Raise e, [req])
    | Ok a =>
      match get_redirect_target a with
      | None => (Ok (answer_response a), [req])
      | Some target => resolve_redirects server history 29 [req] (mkRequest "GET" target [])
      end
    end.
Proof. reflexivity. Qed.

Lemma session_get_no_redirect server history req a :
  server history [] req = Ok a → get_redirect_target a = None →
  session_get server history req = (Ok (answer_response a), [req]).
Proof. intros Hanswer Htarget. by rewrite session_get_first, Hanswer, Htarget. Qed.

Lemma session_get_raises server history req e :
  server history [] req = Raise e → session_get server history req = (Raise e, [req]).
Proof. intros Hanswer. by rewrite session_get_first, Hanswer. Qed.

Lemma session_get_redirect server history req a target :
  server history [] req = Ok a → get_redirect_target a = Some target →
  ∃ rest, (session_get server history req).2 = req :: mkRequest "GET" target [] :: rest.
Proof.
  intros Hanswer Htarget. rewrite session_get_first, Hanswer, Htarget.
  destruct (resolve_redirects_chain server history 29 [req] (mkRequest "GET" target []))
    as (follow_ups & Hsent & _).
  exists follow_ups. by rewrite Hsent.
Qed.

Lemma wire_traffic_one_call server history req :
  wire_traffic server history [EvHttpGet req] = (session_get server history req).2.
Proof. cbn. by rewrite app_nil_r. Qed.

(** C6, as stated, fails: a service that has moved is asked twice within one
    invocation of the tool.  The 302 answer to the tool's request, a status
    other than 200, is followed by a second GET before [get_weather]
    returns. *)
Lemma get_weather_follows_a_redirect :
  wire_traffic moved_server []
    (trace (Basic.get_weather (over_the_wire moved_server (sample_env (Ok paris_weather) ""))
              (PyStr "Paris") empty_world).2)
    = [paris_request; mkRequest "GET" "https://api.open-meteo.com/v2/forecast" []] ∧
  trace (Basic.get_weather (over_the_wire moved_server (sample_env (Ok paris_weather) ""))
           (PyStr "Paris") empty_world).2
    = [EvHttpGet paris_request] ∧
  (Basic.get_weather (over_the_wire moved_server (sample_env (Ok paris_weather) ""))
     (PyStr "Paris") empty_world).1
    = Ok (PyDict [("temperature_2m", PyInt 15); ("wind_speed_10m", PyInt 9)]) ∧
  wire_traffic moved_server []
    (trace (Reasoning.get_weather (over_the_wire moved_server (sample_env (Ok paris_weather) ""))
              (PyFloat 48.8566) (PyFloat 2.3522) empty_world).2)
    = [paris_request; mkRequest "GET" "https://api.open-meteo.com/v2/forecast" []].
Proof. repeat split; vm_compute; reflexivity. Qed.

(** C6: [get_weather] has no retry and no backoff of its own, the library
    it calls follows redirects.  Every invocation calls [requests.get]
    exactly once, whatever comes back.  On the wire that call sends the
    tool's GET and after it one GET for each redirect answer, at most 30.
    When the first answer is no redirect the tool's GET is the only request,
    and a status other than 200 gives the error marker; when it is a
    redirect a second GET goes to its target. *)
Theorem get_weather_single_request E server w :
  (∀ city,
     let run := Basic.get_weather (over_the_wire server E) city w in
     let sent := wire_traffic server (trace w) (new_events w run.2) in
     trace (Basic.get_weather E city w).2 = (trace w ++ [EvHttpGet paris_request])%list ∧
     trace run.2 = (trace w ++ [EvHttpGet paris_request])%list ∧
     redirect_chain server (trace w) paris_request sent ∧
     (∀ a, server (trace w) [] paris_request = Ok a → get_redirect_target a = None →
        sent = [paris_request] ∧
        (status_code (answer_response a) ≠ 200 →
           run.1 = Ok (PyDict [("error", PyStr "Failed to fetch weather data.")]))) ∧
     (∀ e, server (trace w) [] paris_request = Raise e →
        sent = [paris_request] ∧ run.1 = Raise e) ∧
     (∀ a target, server (trace w) [] paris_request = Ok a →
        get_redirect_target a = Some target →
        ∃ rest, sent = paris_request :: mkRequest "GET" target [] :: rest)) ∧
  (∀ lat lon,
     let run := Reasoning.get_weather (over_the_wire server E) lat lon w in
     let sent := wire_traffic server (trace w) (new_events w run.2) in
     trace (Reasoning.get_weather E lat lon w).2
       = (trace w ++ [EvHttpGet (weather_request lat lon)])%list ∧
     trace run.2 = (trace w ++ [EvHttpGet (weather_request lat lon)])%list ∧
     redirect_chain server (trace w) (weather_request lat lon) sent ∧
     (∀ a, server (trace w) [] (weather_request lat lon) = Ok a →
        get_redirect_target a = None →
        sent = [weather_request lat lon] ∧
        (status_code (answer_response a) ≠ 200 →
           run.1 = Ok (PyDict [("error", PyStr "API failed.")]))) ∧
     (∀ e, server (trace w) [] (weather_request lat lon) = Raise e →
        sent = [weather_request lat lon] ∧ run.1 = Raise e) ∧
     (∀ a target, server (trace w) [] (weather_request lat lon) = Ok a →
        get_redirect_target a = Some target →
        ∃ rest, sent = weather_request lat lon :: mkRequest "GET" target [] :: rest)).
Proof.
  split.
  - intros city run sent. subst run sent.
    rewrite !basic_get_weather_run. cbn [fst snd].
    rewrite new_events_log, wire_traffic_one_call.
    change (http_reply (over_the_wire server E) (trace w) paris_request)
      with (session_get server (trace w) paris_request).1.
    split; [done|]. split; [done|]. split; [apply session_get_chain|].
    split; [|split].
    + intros a Hanswer Htarget.
      rewrite (session_get_no_redirect _ _ _ a) by done. cbn [fst snd].
      split; [done|]. apply tool_result_failed.
    + intros e Hanswer. by rewrite (session_get_raises _ _ _ e).
    + intros a target Hanswer Htarget. by apply (session_get_redirect _ _ _ a).
  - intros lat lon run sent. subst run sent.
    rewrite !reasoning_get_weather_run. cbn [fst snd].
    rewrite new_events_log, wire_traffic_one_call.
    change (http_reply (over_the_wire server E) (trace w) (weather_request lat lon))
      with (session_get server (trace w) (weather_request lat lon)).1.
    split; [done|]. split; [done|]. split; [apply session_get_chain|].
    split; [|split].
    + intros a Hanswer Htarget.
      rewrite (session_get_no_redirect _ _ _ a) by done. cbn [fst snd].
      split; [done|]. apply tool_result_failed.
    + intros e Hanswer. by rewrite (session_get_raises _ _ _ e).
    + intros a target Hanswer Htarget. by apply (session_get_redirect _ _ _ a).
Qed.

Lemma get_weather_single_request_witness :
  wire_traffic failing_server []
    (new_events empty_world
       (Basic.get_weather (over_the_wire failing_server (sample_env (Ok paris_weather) ""))
          (PyStr "Paris") empty_world).2)
    = [paris_request] ∧
  (Basic.get_weather (over_the_wire failing_server (sample_env (Ok paris_weather) ""))
     (PyStr "Paris") empty_world).1
    = Ok (PyDict [("error", PyStr "Failed to fetch weather data.")]) ∧
  ∃ rest,
    wire_traffic moved_server []
      (new_events empty_world
         (Reasoning.get_weather (over_the_wire moved_server (sample_env (Ok paris_weather) ""))
            (PyFloat 48.8566) (PyFloat 2.3522) empty_world).2)
      = paris_request :: mkRequest "GET" "https://api.open-meteo.com/v2/forecast" [] :: rest.
Proof.
  pose proof (get_weather_single_request (sample_env (Ok paris_weather) "") failing_server
                empty_world) as [Hbasic _].
  destruct (Hbasic (PyStr "Paris")) as (_ & _ & _ & Hfailed & _).
  destruct (Hfailed (mkAnswer service_unavailable None) eq_refl eq_refl) as [Hsent Hmarker].
  split; [exact Hsent|]. split; [apply Hmarker; simpl; lia|].
  pose proof (get_weather_single_request (sample_env (Ok paris_weather) "") moved_server
                empty_world) as [_ Hreasoning].
  destruct (Hreasoning (PyFloat 48.8566) (PyFloat 2.3522)) as (_ & _ & _ & _ & _ & Hmoved).
  exact (Hmoved _ _ eq_refl eq_refl).
Defined.

Example get_weather_gives_up_at_once :
  Basic.get_weather flaky_env (PyStr "Paris") empty_world
    = (Ok basic_error_marker, mkWorld ∅ [EvHttpGet paris_request]).
Proof. reflexivity. Qed.

(** ** Saving the documents *)

Lemma save_docs_unroll :
  save_docs = (makedirs "rag_docs" true;; for_each doc_files write_doc).
Proof. reflexivity. Qed.

Lemma write_doc_run path text w :
  dirname path ≠ "" → fs w !! dirname path = Some Dir →
  write_doc (path, text) w =
    match fs w !! path with
    | Some Dir => (Raise IsADirectoryError, log (EvOpenW path) w)
    | _ => (Ok tt, mkWorld (<[path := File text]> (fs w))
                           (trace w ++ [EvOpenW path; EvWrite path text]))
    end.
Proof.
  intros Hdir Hparent.
  unfold write_doc, open_w, f_write, mbind, M_bind, set_node, log. cbn.
  apply String.eqb_neq in Hdir. rewrite Hdir, Hparent.
  destruct (fs w !! path) as [[c|]|]; cbn; rewrite ?lookup_insert_eq; cbn;
    rewrite ?insert_insert_eq, <- ?app_assoc; reflexivity.
Qed.

Lemma for_each_write_doc dir docs w :
  dir ≠ "" →
  Forall (fun doc => dirname doc.1 = dir ∧ doc.1 ≠ dir) docs →
  fs w !! dir = Some Dir →
  for_each docs write_doc w =
    let '(r, m, evs) := write_all docs (fs w) in (r, mkWorld m (trace w ++ evs)).
Proof.
  intros Hdir Hdocs. revert w.
  induction Hdocs as [|[path text] docs [Hparent Hne] _ IH]; intros w Hw.
  - cbn. destruct w. by rewrite app_nil_r.
  - cbn [for_each write_all]. unfold mbind, M_bind.
    cbn in Hparent, Hne.
    rewrite write_doc_run by (rewrite Hparent; done).
    destruct (fs w !! path) as [[c|]|] eqn:Hpath; try reflexivity.
    + rewrite IH by (cbn; by rewrite lookup_insert_ne).
      cbn. destruct (write_all docs _) as [[r m] evs]. by rewrite <- app_assoc.
    + rewrite IH by (cbn; by rewrite lookup_insert_ne).
      cbn. destruct (write_all docs _) as [[r m] evs]. by rewrite <- app_assoc.
Qed.

Lemma doc_files_in_rag_docs :
  Forall (fun doc : string * string => dirname doc.1 = "rag_docs" ∧ doc.1 ≠ "rag_docs") doc_files.
Proof. repeat constructor; done. Qed.

Lemma save_docs_run w :
  save_docs w =
    match fs w !! "rag_docs" with
    | Some (File _) => (Raise FileExistsError, log (EvMakedirs "rag_docs") w)
    | _ =>
      let '(r, m, evs) := write_all doc_files (with_docs_dir (fs w)) in
      (r, mkWorld m (trace w ++ EvMakedirs "rag_docs" :: evs))
    end.
Proof.
  rewrite save_docs_unroll. unfold mbind, M_bind, makedirs, with_docs_dir.
  cbn -[for_each write_all doc_files].
  destruct (fs w !! "rag_docs") as [[c|]|] eqn:Hdir; try reflexivity.
  - rewrite (for_each_write_doc "rag_docs") by (done || apply doc_files_in_rag_docs).
    cbn -[write_all doc_files].
    destruct (write_all doc_files _) as [[r m] evs]. by rewrite <- app_assoc.
  - rewrite (for_each_write_doc "rag_docs");
      [|done|apply doc_files_in_rag_docs|cbn; by rewrite lookup_insert_eq].
    cbn -[write_all doc_files].
    destruct (write_all doc_files _) as [[r m] evs]. by rewrite <- app_assoc.
Qed.

Lemma new_events_app w w' evs :
  trace w' = (trace w ++ evs)%list → new_events w w' = evs.
Proof. intros Htrace. unfold new_events. by rewrite Htrace, drop_app_length. Qed.

Lemma write_all_lookup_other docs m path :
  path ∉ docs.*1 → (write_all docs m).1.2 !! path = m !! path.
Proof.
  revert m. induction docs as [|[p t] docs IH]; intros m Hnotin; [done|].
  apply not_elem_of_cons in Hnotin as [Hne Hnotin]. cbn in Hne.
  cbn [write_all].
  assert ((write_all docs (<[p := File t]> m)).1.2 !! path = m !! path) as Hrest.
  { rewrite IH by done. by rewrite lookup_insert_ne. }
  destruct (write_all docs (<[p := File t]> m)) as [[r m'] evs].
  by destruct (m !! p) as [[c|]|].
Qed.

(** Writing the same files again changes nothing: each file is truncated and
    filled with the same text, and a path that is a directory stops the loop
    at the same round. *)
Lemma write_all_again docs m :
  NoDup docs.*1 →
  (write_all docs (write_all docs m).1.2).1 = (write_all docs m).1.
Proof.
  revert m. induction docs as [|[p t] docs IH]; intros m Hnodup; [done|].
  apply NoDup_cons in Hnodup as [Hnotin Hnodup].
  cbn [write_all].
  destruct (m !! p) as [[c|]|] eqn:Hp.
  - pose proof (write_all_lookup_other docs (<[p := File t]> m) p Hnotin) as Hkeep.
    rewrite lookup_insert_eq in Hkeep.
    pose proof (IH (<[p := File t]> m) Hnodup) as Hrest.
    destruct (write_all docs (<[p := File t]> m)) as [[r m'] evs].
    cbn in *. rewrite Hkeep, (insert_id m' p (File t)) by done.
    by destruct (write_all docs m') as [[r' m''] evs'].
  - cbn. by rewrite Hp.
  - pose proof (write_all_lookup_other docs (<[p := File t]> m) p Hnotin) as Hkeep.
    rewrite lookup_insert_eq in Hkeep.
    pose proof (IH (<[p := File t]> m) Hnodup) as Hrest.
    destruct (write_all docs (<[p := File t]> m)) as [[r m'] evs].
    cbn in *. rewrite Hkeep, (insert_id m' p (File t)) by done.
    by destruct (write_all docs m') as [[r' m''] evs'].
Qed.

Lemma write_all_prefix docs m :
  file_writes (write_all docs m).2 `prefix_of` docs.
Proof.
  revert m. induction docs as [|[p t] docs IH]; intros m; [done|].
  cbn [write_all].
  pose proof (IH (<[p := File t]> m)) as Hrest.
  destruct (write_all docs (<[p := File t]> m)) as [[r m'] evs].
  destruct (m !! p) as [[c|]|]; cbn; try (by apply prefix_cons); apply prefix_nil.
Qed.

Lemma write_all_ok docs m m' evs :
  write_all docs m = (Ok tt, m', evs) →
  m' = foldl (fun m doc => <[doc.1 := File doc.2]> m) m docs ∧ file_writes evs = docs.
Proof.
  revert m evs. induction docs as [|[p t] docs IH]; intros m evs Hrun.
  - cbn in Hrun. by injection Hrun as <- <-.
  - cbn [write_all] in Hrun.
    destruct (write_all docs (<[p := File t]> m)) as [[r m''] evs'] eqn:Hrest.
    assert (r = Ok tt ∧ m'' = m' ∧ evs = EvOpenW p :: EvWrite p t :: evs') as (-> & -> & ->).
    { destruct (m !! p) as [[c|]|]; by simplify_eq. }
    apply IH in Hrest as [-> Hwrites]. split; [done|].
    change (file_writes (EvOpenW p :: EvWrite p t :: evs')) with ((p, t) :: file_writes evs').
    by rewrite Hwrites.
Qed.

Lemma with_docs_dir_lookup m :
  (∀ c, m !! "rag_docs" ≠ Some (File c)) → with_docs_dir m !! "rag_docs" = Some Dir.
Proof.
  intros Hnofile. unfold with_docs_dir.
  destruct (m !! "rag_docs") as [[c|]|] eqn:Hdir; [by destruct (Hnofile c)|done|].
  apply lookup_insert_eq.
Qed.

Lemma with_docs_dir_other m path :
  path ≠ "rag_docs" → with_docs_dir m !! path = m !! path.
Proof.
  intros Hne. unfold with_docs_dir.
  destruct (m !! "rag_docs"); [done|]. by rewrite lookup_insert_ne.
Qed.

Lemma doc_files_paths :
  doc_files.*1 = ["rag_docs/doc_0.txt"; "rag_docs/doc_1.txt"; "rag_docs/doc_2.txt"].
Proof. reflexivity. Qed.

Lemma doc_files_NoDup : NoDup doc_files.*1.
Proof. apply (bool_decide_unpack _). by vm_compute. Qed.

Lemma docs_dir_not_a_doc : "rag_docs" ∉ doc_files.*1.
Proof. apply (bool_decide_unpack _). by vm_compute. Qed.

(** C7: the setup step writes the three tips and nothing else.  In every run
    the texts written are an initial part of the three (path, text) pairs;
    in a run that completes they are exactly the three, file [doc_i] holds
    the [i]-th tip, and no other path of the file system changes except that
    the directory exists. *)
Theorem save_docs_writes w :
  file_writes (new_events w (save_docs w).2) `prefix_of` doc_files ∧
  (∀ w', save_docs w = (Ok tt, w') →
     file_writes (new_events w w') =
       imap (fun i text => ("rag_docs/doc_" +:+ str_int (Z.of_nat i) +:+ ".txt", text)) rag_docs ∧
     length (file_writes (new_events w w')) = 3%nat ∧
     (∀ (i : nat) text, rag_docs !! i = Some text →
        fs w' !! ("rag_docs/doc_" +:+ str_int (Z.of_nat i) +:+ ".txt") = Some (File text)) ∧
     fs w' !! "rag_docs" = Some Dir ∧
     (∀ path, path ∉ ["rag_docs"; "rag_docs/doc_0.txt"; "rag_docs/doc_1.txt"; "rag_docs/doc_2.txt"] →
        fs w' !! path = fs w !! path)).
Proof.
  rewrite save_docs_run. split.
  - destruct (fs w !! "rag_docs") as [[c|]|];
      [cbn [snd]; rewrite new_events_log; apply prefix_nil| |].
    all: pose proof (write_all_prefix doc_files (with_docs_dir (fs w))) as Hprefix.
    all: destruct (write_all doc_files _) as [[r m] evs].
    all: cbn [snd] in *.
    all: rewrite (new_events_app w _ (EvMakedirs "rag_docs" :: evs)) by done.
    all: exact Hprefix.
  - intros w' Hrun.
    assert (∀ c, fs w !! "rag_docs" ≠ Some (File c)) as Hnofile.
    { intros c Hc. by rewrite Hc in Hrun. }
    assert (∃ evs, write_all doc_files (with_docs_dir (fs w)) = (Ok tt, fs w', evs)
                   ∧ new_events w w' = EvMakedirs "rag_docs" :: evs) as (evs & Hwrite & Hnew).
    { destruct (write_all doc_files _) as [[r m] evs]. exists evs.
      destruct (fs w !! "rag_docs") as [[c|]|]; [done| |].
      all: injection Hrun as -> <-; split; [done|by apply new_events_app]. }
    apply write_all_ok in Hwrite as [Hfs Hwrites].
    rewrite Hnew.
    change (file_writes (EvMakedirs "rag_docs" :: evs)) with (file_writes evs).
    rewrite Hwrites, Hfs. cbn [foldl doc_files zip zip_with rag_docs fst snd].
    pose proof (with_docs_dir_lookup (fs w) Hnofile) as Hdir.
    split; [reflexivity|]. split; [reflexivity|]. split; [|split].
    + intros [|[|[|i]]] text Hi; cbn in Hi; simplify_eq.
      * change (_ +:+ _) with "rag_docs/doc_0.txt".
        rewrite ?lookup_insert_ne by done. by rewrite lookup_insert_eq.
      * change (_ +:+ _) with "rag_docs/doc_1.txt".
        rewrite ?lookup_insert_ne by done. by rewrite lookup_insert_eq.
      * change (_ +:+ _) with "rag_docs/doc_2.txt".
        by rewrite lookup_insert_eq.
    + by rewrite ?lookup_insert_ne by done.
    + intros path Hpath. rewrite !not_elem_of_cons in Hpath.
      destruct Hpath as (? & ? & ? & ? & _).
      rewrite !lookup_insert_ne by done. by apply with_docs_dir_other.
Qed.

Lemma save_docs_writes_witness :
  fs (save_docs empty_world).2 !! "rag_docs/doc_1.txt"
    = Some (File "Always check the local metro schedule to avoid delays.") ∧
  length (file_writes (new_events empty_world (save_docs empty_world).2)) = 3%nat.
Proof.
  pose proof (proj2 (save_docs_writes empty_world) (save_docs empty_world).2 eq_refl)
    as (_ & Hthree & Hfile & _).
  split.
  - exact (Hfile 1%nat _ eq_refl).
  - exact Hthree.
Defined.

(** C10: the step is idempotent.  Run on the file system that one run left,
    it ends the same way and leaves the same file system. *)
Theorem save_docs_idempotent w :
  fs (save_docs (save_docs w).2).2 = fs (save_docs w).2 ∧
  (save_docs (save_docs w).2).1 = (save_docs w).1.
Proof.
  rewrite (save_docs_run w).
  destruct (fs w !! "rag_docs") as [[c|]|] eqn:Hdir;
    [rewrite save_docs_run; cbn; by rewrite Hdir| |].
  all: assert (with_docs_dir (fs w) !! "rag_docs" = Some Dir) as Hready
         by (apply with_docs_dir_lookup; congruence).
  all: pose proof (write_all_again doc_files (with_docs_dir (fs w)) doc_files_NoDup) as Hagain.
  all: pose proof (write_all_lookup_other doc_files (with_docs_dir (fs w)) _ docs_dir_not_a_doc)
         as Hkeep.
  all: destruct (write_all doc_files (with_docs_dir (fs w))) as [[r m] evs].
  all: cbn [fst snd] in Hagain, Hkeep; rewrite Hready in Hkeep.
  all: cbn [fst snd]; rewrite save_docs_run; cbn [fs]; rewrite Hkeep.
  all: unfold with_docs_dir; rewrite Hkeep.
  all: destruct (write_all doc_files m) as [[r' m'] evs'].
  all: cbn in Hagain; by injection Hagain as -> ->.
Qed.

(** ** The weather text and the query *)

Lemma basic_weather_text_run E weather w :
  Basic.weather_text E weather w =
    match weather with
    | PyDict d => (Ok (basic_text E d), w)
    | _ => (Raise AttributeError, w)
    end.
Proof. by destruct weather. Qed.

Lemma reasoning_weather_text_run E weather w :
  Reasoning.weather_text E weather w =
    match weather with
    | PyDict d => (Ok (reasoning_text E d), w)
    | _ => (Raise AttributeError, w)
    end.
Proof. by destruct weather. Qed.

Lemma fmt_missing E d key :
  dict_lookup key d = None → fmt E (dict_get d key (PyStr "?")) = "?".
Proof. intros Hnone. unfold dict_get. by rewrite Hnone. Qed.

(** ** Running the cells *)

Lemma basic_step4_run E embedding w :
  Basic.step4 E embedding w =
    let w1 := log (EvHttpGet paris_request) w in
    match tool_result basic_error_marker (http_reply E (trace w) paris_request) with
    | Raise e => (Raise e, w1)
    | Ok (PyDict d) =>
      let query := Basic.query (basic_text E d) in
      let w2 := log (EvQaRun (Basic.qa embedding) query) w1 in
      match qa_reply E (trace w1) (Basic.qa embedding) query with
      | Raise e => (Raise e, w2)
      | Ok final_response =>
        (Ok tt, log (EvPrint final_response) (log (EvPrint ("🤖 AI Agent Response:" +:+ nl)) w2))
      end
    | Ok _ => (Raise AttributeError, w1)
    end.
Proof.
  unfold Basic.step4, mbind, M_bind.
  rewrite basic_get_weather_run.
  destruct (tool_result _ _) as [weather|e]; [|done].
  rewrite basic_weather_text_run.
  by destruct weather.
Qed.

Lemma reasoning_tool_cell_run E w :
  Reasoning.tool_cell E w =
    let w1 := log (EvHttpGet paris_request) w in
    match tool_result reasoning_error_marker (http_reply E (trace w) paris_request) with
    | Raise e => (Raise e, w1)
    | Ok (PyDict d) =>
      (Ok (reasoning_text E d),
       log (EvPrint (reasoning_text E d))
         (log (EvPrint (nl +:+ "🌦️ Simulated Weather Tool Output:")) w1))
    | Ok _ => (Raise AttributeError, w1)
    end.
Proof.
  unfold Reasoning.tool_cell, mbind, M_bind.
  rewrite reasoning_get_weather_run. fold paris_request.
  destruct (tool_result _ _) as [weather|e]; [|done].
  rewrite reasoning_weather_text_run.
  by destruct weather.
Qed.

Lemma reasoning_final_cell_run E embedding text w :
  Reasoning.final_cell E embedding text w =
    let query := Reasoning.query text in
    let w1 := log (EvQaRun (Reasoning.qa embedding) query) w in
    match qa_reply E (trace w) (Reasoning.qa embedding) query with
    | Raise e => (Raise e, w1)
    | Ok final_answer =>
      (Ok tt, log (EvPrint final_answer) (log (EvPrint (nl +:+ "🧠 Final Agent Response:")) w1))
    end.
Proof.
  unfold Reasoning.final_cell, mbind, M_bind, qa_run, print, call.
  by destruct (qa_reply E _ _ _).
Qed.

Lemma reasoning_cell_run E w :
  Reasoning.reasoning_cell E w =
    let w1 := log (EvLlmInvoke Reasoning.llm Reasoning.question) w in
    match llm_reply E (trace w) Reasoning.llm Reasoning.question with
    | Raise e => (Raise e, w1)
    | Ok response =>
      (Ok response, log (EvPrint response) (log (EvPrint "🤔 LLM Initial Reasoning:") w1))
    end.
Proof.
  unfold Reasoning.reasoning_cell, mbind, M_bind, llm_invoke, print, call.
  by destruct (llm_reply E _ _ _).
Qed.

Lemma fs_events_no_interaction evs :
  Forall is_fs_event evs → omap interaction_of evs = [] ∧ service_calls evs = [] ∧ http_requests evs = [].
Proof.
  induction 1 as [|e evs He _ (IH1 & IH2 & IH3)]; [done|].
  unfold service_calls, http_requests in *.
  destruct e; try done; cbn; rewrite ?IH1, ?IH3; (split; [done|split; [|done]]).
  all: by rewrite filter_cons_False by (cbn; by intros [? ?]).
Qed.

Lemma write_all_fs_events docs m : Forall is_fs_event (write_all docs m).2.
Proof.
  revert m. induction docs as [|[p t] docs IH]; intros m; [constructor|].
  cbn [write_all]. specialize (IH (<[p := File t]> m)).
  destruct (write_all docs (<[p := File t]> m)) as [[r m'] evs].
  destruct (m !! p) as [[c|]|]; repeat constructor; done.
Qed.

Lemma save_docs_fs_events w :
  ∃ evs, trace (save_docs w).2 = (trace w ++ evs)%list ∧ Forall is_fs_event evs.
Proof.
  rewrite save_docs_run.
  pose proof (write_all_fs_events doc_files (with_docs_dir (fs w))) as Hevs.
  destruct (write_all doc_files _) as [[r m] evs].
  destruct (fs w !! "rag_docs") as [[c|]|].
  - exists [EvMakedirs "rag_docs"]. split; [done|]. by repeat constructor.
  - exists (EvMakedirs "rag_docs" :: evs). split; [done|]. by constructor.
  - exists (EvMakedirs "rag_docs" :: evs). split; [done|]. by constructor.
Qed.

Lemma load_all_fs_events files all_docs w :
  ∃ evs, trace (load_all files all_docs w).2 = (trace w ++ evs)%list ∧ Forall is_fs_event evs.
Proof.
  revert all_docs w. induction files as [|file files IH]; intros all_docs w.
  - exists []. by rewrite app_nil_r.
  - cbn [load_all]. unfold mbind, M_bind, text_loader_load.
    destruct (fs (log _ w) !! _) as [[bytes|]|]; [destruct (decode_text bytes) as [text|]| |].
    + destruct (IH (all_docs ++ [mkDocument text ("rag_docs/" +:+ file)])%list
                   (log (EvLoad ("rag_docs/" +:+ file)) w)) as (evs & Htrace & Hevs).
      exists (EvLoad ("rag_docs/" +:+ file) :: evs). split; [|by constructor].
      rewrite Htrace. cbn. by rewrite <- app_assoc.
    + exists [EvLoad ("rag_docs/" +:+ file)]. split; [done|]. by repeat constructor.
    + exists [EvLoad ("rag_docs/" +:+ file)]. split; [done|]. by repeat constructor.
    + exists [EvLoad ("rag_docs/" +:+ file)]. split; [done|]. by repeat constructor.
Qed.

Lemma load_and_split_fs_events E w :
  ∃ evs, trace (load_and_split E w).2 = (trace w ++ evs)%list ∧ Forall is_fs_event evs.
Proof.
  unfold load_and_split, mbind, M_bind, listdir.
  destruct (fs (log _ w) !! "rag_docs") as [[c|]|].
  - exists [EvListdir "rag_docs"]. split; [done|]. by repeat constructor.
  - match goal with |- context [load_all ?files ?docs ?w'] =>
      destruct (load_all_fs_events files docs w') as (evs & Htrace & Hevs);
      destruct (load_all files docs w') as [[all_docs|e] w''] end.
    + exists (EvListdir "rag_docs" :: evs). split; [|by constructor].
      cbn in *. rewrite Htrace. by rewrite <- app_assoc.
    + exists (EvListdir "rag_docs" :: evs). split; [|by constructor].
      cbn in *. rewrite Htrace. by rewrite <- app_assoc.
  - exists [EvListdir "rag_docs"]. split; [done|]. by repeat constructor.
Qed.

Lemma prepare_fs_events E w :
  ∃ evs, trace (prepare E w).2 = (trace w ++ evs)%list ∧ Forall is_fs_event evs.
Proof.
  unfold prepare, mbind, M_bind.
  destruct (save_docs_fs_events w) as (evs1 & Htrace1 & Hevs1).
  destruct (save_docs w) as [[[]|e] w1]; [|by exists evs1].
  destruct (load_and_split_fs_events E w1) as (evs2 & Htrace2 & Hevs2).
  exists (evs1 ++ evs2)%list. split; [|by apply Forall_app].
  cbn in Htrace1. rewrite app_assoc, <- Htrace1.
  by destruct (load_and_split E w1) as [[splits|e] w2].
Qed.

Lemma embed_and_persist_run E splits w :
  embed_and_persist E splits w =
    let w1 := log (EvFromDocuments splits vectordb) w in
    match chroma_from_documents E (trace w) splits vectordb with
    | Raise e => (Raise e, w1)
    | Ok _ =>
      match chroma_persist E (trace w1) vectordb with
      | Raise e => (Raise e, log (EvPersist vectordb) w1)
      | Ok _ => (Ok (mkOllamaEmbeddings "llama3"), log (EvPersist vectordb) w1)
      end
    end.
Proof.
  unfold embed_and_persist, Chroma_from_documents, persist, call, vectordb.
  unfold mbind, M_bind, mret, M_ret. cbn.
  destruct (chroma_from_documents E _ _ _) as [[]|e]; [|reflexivity].
  destruct (chroma_persist E _ _) as [[]|e]; reflexivity.
Qed.

Lemma step2_unfold E w :
  step2 E w =
    match prepare E w with
    | (Ok splits, w1) => embed_and_persist E splits w1
    | (Raise e, w1) => (Raise e, w1)
    end.
Proof.
  unfold step2, prepare, mbind, M_bind.
  destruct (save_docs w) as [[[]|e] w1]; [|done].
  by destruct (load_and_split E w1) as [[splits|e] w2].
Qed.

Lemma after_fs_events local rest :
  Forall is_fs_event local →
  interactions (local ++ rest) = interactions rest ∧
  service_calls (local ++ rest) = service_calls rest ∧
  http_requests (local ++ rest) = http_requests rest.
Proof.
  intros Hlocal. apply fs_events_no_interaction in Hlocal as (Hnone & Hcalls & Hhttp).
  unfold interactions, service_calls, http_requests in *.
  by rewrite omap_app, Hnone, filter_app, Hcalls, omap_app, Hhttp.
Qed.

Lemma basic_script_unfold E w :
  Basic.script E w =
    match step2 E w with
    | (Ok embedding, w2) => Basic.step4 E embedding w2
    | (Raise e, w2) => (Raise e, w2)
    end.
Proof. reflexivity. Qed.

(** Rewrites the calls of a finished run as the local calls of the
    preparation followed by the calls listed in the goal's world. *)
Ltac list_new_events Htrace :=
  match goal with
  | |- context [new_events ?w ?w'] =>
    erewrite (new_events_app w w')
      by (unfold log; cbn [trace]; rewrite Htrace, <- ?app_assoc; reflexivity)
  end.

(** C5: the external interactions of the script come in one order: embed and
    store, then the HTTP fetch, then prompt and generate.  A run that
    completes makes exactly these three, in four service calls:
    [from_documents] with the documents of the preparation and [persist],
    the GET of the weather tool, and [qa.run] with the query built from the
    dict the tool returned.  A run halted by an exception has made an
    initial part of the three; none comes out of order.  And a run in which
    step 2 completes and the tool returns a dict does make the three
    interactions, whatever the QA chain then answers. *)
Theorem basic_script_interactions E w :
  match Basic.script E w with
  | (Ok _, w') =>
    interactions (new_events w w') = [EmbedStore; HttpFetch; PromptGenerate] ∧
    ∃ splits d,
      let weather_text :=
        "The current temperature in Paris is "
        +:+ fmt E (dict_get d "temperature_2m" (PyStr "?")) +:+ "°C with wind speed "
        +:+ fmt E (dict_get d "wind_speed_10m" (PyStr "?")) +:+ " km/h." in
      (prepare E w).1 = Ok splits ∧
      (Basic.get_weather E (PyStr "Paris") (after_step2 E w)).1 = Ok (PyDict d) ∧
      service_calls (new_events w w') =
        [EvFromDocuments splits (mkChroma "./chroma_db" (mkOllamaEmbeddings "llama3"));
         EvPersist (mkChroma "./chroma_db" (mkOllamaEmbeddings "llama3"));
         EvHttpGet (weather_request (PyFloat 48.8566) (PyFloat 2.3522));
         EvQaRun
           (mkRetrievalQA (mkOllama "llama3")
              (mkChroma "./chroma_db" (mkOllamaEmbeddings "llama3")))
           ("Given this weather: " +:+ weather_text
            +:+ ", what travel tips do you have for Paris?")]
  | (Raise _, w') =>
    interactions (new_events w w') `prefix_of` [EmbedStore; HttpFetch; PromptGenerate]
  end ∧
  (∀ splits embedding d,
     let weather_text :=
       "The current temperature in Paris is "
       +:+ fmt E (dict_get d "temperature_2m" (PyStr "?")) +:+ "°C with wind speed "
       +:+ fmt E (dict_get d "wind_speed_10m" (PyStr "?")) +:+ " km/h." in
     (prepare E w).1 = Ok splits →
     (step2 E w).1 = Ok embedding →
     (Basic.get_weather E (PyStr "Paris") (after_step2 E w)).1 = Ok (PyDict d) →
     interactions (new_events w (Basic.script E w).2)
       = [EmbedStore; HttpFetch; PromptGenerate] ∧
     service_calls (new_events w (Basic.script E w).2) =
       [EvFromDocuments splits (mkChroma "./chroma_db" (mkOllamaEmbeddings "llama3"));
        EvPersist (mkChroma "./chroma_db" (mkOllamaEmbeddings "llama3"));
        EvHttpGet (weather_request (PyFloat 48.8566) (PyFloat 2.3522));
        EvQaRun
          (mkRetrievalQA (mkOllama "llama3")
             (mkChroma "./chroma_db" (mkOllamaEmbeddings "llama3")))
          ("Given this weather: " +:+ weather_text
           +:+ ", what travel tips do you have for Paris?")]).
Proof.
  split.
  - unfold after_step2.
    rewrite basic_script_unfold, step2_unfold.
    destruct (prepare_fs_events E w) as (local & Htrace & Hlocal).
    pose proof (fun rest => after_fs_events local rest Hlocal) as Hafter.
    destruct (prepare E w) as [[splits|e] w1]; cbn [fst snd] in Htrace |- *.
    + rewrite embed_and_persist_run. cbn zeta.
      destruct (chroma_from_documents E _ _ _) as [[]|e].
      * destruct (chroma_persist E _ _) as [[]|e].
        -- cbn [snd]. rewrite basic_step4_run, basic_get_weather_run. cbn zeta. cbn [fst].
           destruct (tool_result _ _) as [weather|e].
           ++ destruct weather.
              7: destruct (qa_reply E _ _ _) as [final_response|e].
              all: list_new_events Htrace.
              all: rewrite (proj1 (Hafter _)).
              all: try (by (apply (bool_decide_unpack _); vm_compute)).
              split; [reflexivity|]. rewrite (proj1 (proj2 (Hafter _))).
              exists splits, d. split; [reflexivity|]. split; reflexivity.
           ++ list_new_events Htrace. rewrite (proj1 (Hafter _)).
              by (apply (bool_decide_unpack _); vm_compute).
        -- list_new_events Htrace. rewrite (proj1 (Hafter _)).
           by (apply (bool_decide_unpack _); vm_compute).
      * list_new_events Htrace. rewrite (proj1 (Hafter _)).
        by (apply (bool_decide_unpack _); vm_compute).
    + rewrite (new_events_app w w1 local) by done.
      destruct (fs_events_no_interaction local Hlocal) as (Hnone & _).
      unfold interactions. rewrite Hnone. apply prefix_nil.
  - intros splits embedding d weather_text Hprepare Hstep2 Hweather.
    unfold after_step2 in Hweather. revert Hstep2 Hweather.
    rewrite basic_script_unfold, step2_unfold.
    destruct (prepare_fs_events E w) as (local & Htrace & Hlocal).
    pose proof (fun rest => after_fs_events local rest Hlocal) as Hafter.
    destruct (prepare E w) as [[splits'|e] w1]; cbn [fst snd] in Htrace, Hprepare |- *;
      [|done].
    injection Hprepare as ->.
    rewrite embed_and_persist_run. cbn zeta.
    destruct (chroma_from_documents E _ _ _) as [[]|e];
      [destruct (chroma_persist E _ _) as [[]|e]|]; cbn [fst snd]; try done.
    intros _ Hweather.
    rewrite basic_get_weather_run in Hweather. cbn [fst] in Hweather.
    rewrite basic_step4_run, Hweather. cbn zeta.
    destruct (qa_reply E _ _ _) as [final_response|e].
    all: list_new_events Htrace.
    all: rewrite (proj1 (Hafter _)), (proj1 (proj2 (Hafter _))).
    all: split; reflexivity.
Qed.

Lemma basic_script_interactions_witness :
  (Basic.script (sample_env (Ok paris_weather) "") empty_world).1 = Ok tt ∧
  interactions (new_events empty_world
                  (Basic.script (sample_env (Ok paris_weather) "") empty_world).2)
    = [EmbedStore; HttpFetch; PromptGenerate].
Proof.
  pose proof (basic_script_interactions (sample_env (Ok paris_weather) "") empty_world)
    as [_ Hmade].
  split; [vm_compute; reflexivity|].
  assert (∃ splits,
            (prepare (sample_env (Ok paris_weather) "") empty_world).1 = Ok splits)
    as [splits Hprepare] by (eexists; vm_compute; reflexivity).
  apply (Hmade splits (mkOllamaEmbeddings "llama3")
           [("temperature_2m", PyInt 15); ("wind_speed_10m", PyInt 9)]).
  - exact Hprepare.
  - vm_compute. reflexivity.
  - vm_compute. reflexivity.
Defined.

Lemma step2_no_http E w :
  ∃ evs, trace (step2 E w).2 = (trace w ++ evs)%list ∧ http_requests evs = [].
Proof.
  rewrite step2_unfold.
  destruct (prepare_fs_events E w) as (local & Htrace & Hlocal).
  pose proof (fun rest => proj2 (proj2 (after_fs_events local rest Hlocal))) as Hafter.
  destruct (prepare E w) as [[splits|e] w1]; cbn [snd] in Htrace.
  - rewrite embed_and_persist_run. cbn zeta.
    destruct (chroma_from_documents E _ _ _) as [[]|e];
      [destruct (chroma_persist E _ _) as [[]|e]|].
    all: eexists (local ++ _)%list; rewrite Hafter.
    all: unfold log; cbn [snd trace]; rewrite Htrace, <- ?app_assoc.
    all: split; reflexivity.
  - exists local. split; [done|]. by apply fs_events_no_interaction.
Qed.

Lemma reasoning_script_unfold E w :
  Reasoning.script E w =
    match step2 E w with
    | (Ok embedding, w1) =>
      match Reasoning.reasoning_cell E w1 with
      | (Ok response, w2) =>
        match Reasoning.tool_cell E w2 with
        | (Ok weather_text, w3) => Reasoning.final_cell E embedding weather_text w3
        | (Raise e, w3) => (Raise e, w3)
        end
      | (Raise e, w2) => (Raise e, w2)
      end
    | (Raise e, w1) => (Raise e, w1)
    end.
Proof. reflexivity. Qed.

Lemma http_requests_app l1 l2 :
  http_requests (l1 ++ l2) = (http_requests l1 ++ http_requests l2)%list.
Proof. apply omap_app. Qed.

(** The HTTP requests of a run of the reasoning notebook: none when it halts
    before the tool cell, the one request for Paris when it reaches it. *)
Lemma reasoning_script_http E w :
  http_requests (new_events w (Reasoning.script E w).2) =
    match step2 E w with
    | (Ok _, w1) => if is_ok (Reasoning.reasoning_cell E w1).1 then [paris_request] else []
    | (Raise _, _) => []
    end.
Proof.
  rewrite reasoning_script_unfold.
  destruct (step2_no_http E w) as (evs & Htrace & Hevs).
  destruct (step2 E w) as [[embedding|e] w1]; cbn [snd] in Htrace.
  - rewrite reasoning_cell_run. cbn zeta.
    destruct (llm_reply E _ _ _) as [response|e]; cbn [fst is_ok].
    + rewrite reasoning_tool_cell_run. cbn zeta.
      destruct (tool_result _ _) as [[| | | | | |d]|e];
        try rewrite reasoning_final_cell_run; cbn zeta;
        try destruct (qa_reply E _ _ _) as [final_answer|e].
      all: list_new_events Htrace.
      all: by rewrite http_requests_app, Hevs.
    + list_new_events Htrace. by rewrite http_requests_app, Hevs.
  - cbn [snd]. by rewrite (new_events_app w w1 evs).
Qed.

(** C4: the coordinates of the follow-up call are the constants of the cell.
    Whatever the environment and whatever was logged before (so whatever
    the model said), the tool cell issues the request for latitude 48.8566
    and longitude 2.3522 and no other; and two runs of the notebook in which
    the model answers, with any texts, issue the same single request. *)
Theorem reasoning_tool_call_fixed :
  (∀ E w, ∃ rest,
     new_events w (Reasoning.tool_cell E w).2
       = EvHttpGet (weather_request (PyFloat 48.8566) (PyFloat 2.3522)) :: rest ∧
     http_requests rest = []) ∧
  (∀ E w, http_requests (new_events w (Reasoning.script E w).2) `prefix_of` [paris_request]) ∧
  (∀ E1 E2 w embedding1 embedding2 w1 w2 text1 text2 w1' w2',
     step2 E1 w = (Ok embedding1, w1) → Reasoning.reasoning_cell E1 w1 = (Ok text1, w1') →
     step2 E2 w = (Ok embedding2, w2) → Reasoning.reasoning_cell E2 w2 = (Ok text2, w2') →
     http_requests (new_events w (Reasoning.script E1 w).2) = [paris_request] ∧
     http_requests (new_events w (Reasoning.script E2 w).2) = [paris_request]).
Proof.
  split; [|split].
  - intros E w. rewrite reasoning_tool_cell_run. cbn zeta. fold paris_request.
    destruct (tool_result _ _) as [[| | | | | |d]|e].
    all: erewrite new_events_app
           by (unfold log; cbn [snd trace]; rewrite <- ?app_assoc; reflexivity).
    all: by eexists.
  - intros E w. rewrite reasoning_script_http.
    destruct (step2 E w) as [[embedding|e] w1]; [|apply prefix_nil].
    destruct (is_ok _); [done|apply prefix_nil].
  - intros E1 E2 w embedding1 embedding2 w1 w2 text1 text2 w1' w2' H1 H1' H2 H2'.
    rewrite !reasoning_script_http, H1, H2, H1', H2'. done.
Qed.

Lemma reasoning_tool_call_fixed_witness :
  http_requests (new_events empty_world
    (Reasoning.script (sample_env (Ok paris_weather) "Check the weather in Paris.") empty_world).2)
    = [paris_request] ∧
  http_requests (new_events empty_world
    (Reasoning.script (sample_env (Ok paris_weather) "No tool is needed.") empty_world).2)
    = [paris_request].
Proof.
  eapply (proj2 (proj2 reasoning_tool_call_fixed)
            (sample_env (Ok paris_weather) "Check the weather in Paris.")
            (sample_env (Ok paris_weather) "No tool is needed.")
            empty_world).
  - vm_compute. reflexivity.
  - vm_compute. reflexivity.
  - vm_compute. reflexivity.
  - vm_compute. reflexivity.
Defined.

Lemma fs_events_silent evs :
  Forall is_fs_event evs → prints evs = [] ∧ qa_queries evs = [].
Proof.
  induction 1 as [|e evs He _ [IH1 IH2]]; [done|].
  unfold prints, qa_queries in *. by destruct e; cbn; rewrite ?IH1, ?IH2.
Qed.

Lemma after_fs_events_silent local rest :
  Forall is_fs_event local →
  prints (local ++ rest) = prints rest ∧ qa_queries (local ++ rest) = qa_queries rest.
Proof.
  intros Hlocal. apply fs_events_silent in Hlocal as [Hprints Hqueries].
  unfold prints, qa_queries in *. by rewrite !omap_app, Hprints, Hqueries.
Qed.

Lemma step2_no_query E w :
  ∃ evs, trace (step2 E w).2 = (trace w ++ evs)%list ∧ qa_queries evs = [].
Proof.
  rewrite step2_unfold.
  destruct (prepare_fs_events E w) as (local & Htrace & Hlocal).
  pose proof (fun rest => proj2 (after_fs_events_silent local rest Hlocal)) as Hafter.
  destruct (prepare E w) as [[splits|e] w1]; cbn [snd] in Htrace.
  - rewrite embed_and_persist_run. cbn zeta.
    destruct (chroma_from_documents E _ _ _) as [[]|e];
      [destruct (chroma_persist E _ _) as [[]|e]|].
    all: eexists (local ++ _)%list; rewrite Hafter.
    all: unfold log; cbn [snd trace]; rewrite Htrace, <- ?app_assoc.
    all: split; reflexivity.
  - exists local. split; [done|]. by apply fs_events_silent.
Qed.

Lemma basic_step4_extends E embedding w :
  trace (Basic.step4 E embedding w).2
    = (trace w ++ new_events w (Basic.step4 E embedding w).2)%list.
Proof.
  rewrite basic_step4_run. cbn zeta.
  destruct (tool_result _ _) as [[| | | | | |d]|e];
    try destruct (qa_reply E _ _ _) as [final_response|e].
  all: cbn [snd]; erewrite (new_events_app w)
         by (unfold log; cbn [trace]; rewrite <- ?app_assoc; reflexivity).
  all: unfold log; cbn [trace]; by rewrite <- ?app_assoc.
Qed.

Lemma new_events_trans w w1 w2 evs :
  trace w1 = (trace w ++ evs)%list → trace w2 = (trace w1 ++ new_events w1 w2)%list →
  new_events w w2 = (evs ++ new_events w1 w2)%list.
Proof.
  intros H1 H2. apply new_events_app. by rewrite H2, H1, <- app_assoc.
Qed.

(** C8, as stated, fails: an API failure need not come as a status.  When
    the service cannot be reached both scripts end with the exception of
    [requests.get], and a page that is not JSON under status 200 ends the
    basic script in [response.json()]; the QA chain is never called. *)
Lemma api_failure_halts_the_script :
  (Basic.script unreachable_env empty_world).1 = Raise RequestException ∧
  qa_queries (trace (Basic.script unreachable_env empty_world).2) = [] ∧
  (Reasoning.script unreachable_env empty_world).1 = Raise RequestException ∧
  qa_queries (trace (Reasoning.script unreachable_env empty_world).2) = [] ∧
  (Basic.script (sample_env (Ok html_body) "") empty_world).1 = Raise JSONDecodeError ∧
  qa_queries (trace (Basic.script (sample_env (Ok html_body) "") empty_world).2) = [].
Proof. repeat split; vm_compute; reflexivity. Qed.

(** C8: a dict without the two keys does not stop the agent, an API failure
    of another kind does.  The weather text of any dict is built without
    raising, with ['?'] in the place of each missing value.  Whenever
    [get_weather] returns a dict, the basic agent builds its query around
    that text and calls the QA chain, and raises only if the chain does; the
    reasoning agent's tool cell returns its text and the final cell builds
    its query around it and calls the QA chain.  After a response whose
    status is not 200 both queries carry the two ['?'].  When
    [requests.get] raises, when a 200 body is not a JSON object, or when its
    [current] value is not an object, step 4 and the tool cell raise and no
    query is made; the scripts end with that exception, without a query to
    the QA chain. *)
Theorem weather_text_survives_missing_values E :
  (∀ d w, ∃ temperature wind_speed,
     Basic.weather_text E (PyDict d) w =
       (Ok ("The current temperature in Paris is " +:+ temperature
            +:+ "°C with wind speed " +:+ wind_speed +:+ " km/h."), w) ∧
     (dict_lookup "temperature_2m" d = None → temperature = "?") ∧
     (dict_lookup "wind_speed_10m" d = None → wind_speed = "?")) ∧
  (∀ d w, ∃ temperature wind_speed,
     Reasoning.weather_text E (PyDict d) w =
       (Ok ("Temperature: " +:+ temperature +:+ "°C, Wind: " +:+ wind_speed +:+ " km/h."), w) ∧
     (dict_lookup "temperature_2m" d = None → temperature = "?") ∧
     (dict_lookup "wind_speed_10m" d = None → wind_speed = "?")) ∧
  (∀ embedding w d,
     (Basic.get_weather E (PyStr "Paris") w).1 = Ok (PyDict d) →
     ∃ text rest,
       let query :=
         "Given this weather: " +:+ text +:+ ", what travel tips do you have for Paris?" in
       (∀ w', Basic.weather_text E (PyDict d) w' = (Ok text, w')) ∧
       new_events w (Basic.step4 E embedding w).2 =
         EvHttpGet paris_request :: EvQaRun (Basic.qa embedding) query :: rest ∧
       (Basic.step4 E embedding w).1 =
         match qa_reply E (trace w ++ [EvHttpGet paris_request]) (Basic.qa embedding) query with
         | Ok _ => Ok tt
         | Raise e => Raise e
         end) ∧
  (∀ embedding w response,
     http_reply E (trace w) paris_request = Ok response → status_code response ≠ 200 →
     ∃ rest,
       new_events w (Basic.step4 E embedding w).2 =
         EvHttpGet paris_request
         :: EvQaRun (Basic.qa embedding)
              "Given this weather: The current temperature in Paris is ?°C with wind speed ? km/h., what travel tips do you have for Paris?"
         :: rest) ∧
  (∀ embedding w d,
     (Reasoning.get_weather E (PyFloat 48.8566) (PyFloat 2.3522) w).1 = Ok (PyDict d) →
     ∃ text w1 rest,
       let query :=
         "The weather in Paris today is: " +:+ text +:+ "." +:+ nl
         +:+ "Based on this and local travel tips, what should a traveler know?" in
       (∀ w', Reasoning.weather_text E (PyDict d) w' = (Ok text, w')) ∧
       Reasoning.tool_cell E w = (Ok text, w1) ∧
       new_events w1 (Reasoning.final_cell E embedding text w1).2 =
         EvQaRun (Reasoning.qa embedding) query :: rest ∧
       (Reasoning.final_cell E embedding text w1).1 =
         match qa_reply E (trace w1) (Reasoning.qa embedding) query with
         | Ok _ => Ok tt
         | Raise e => Raise e
         end) ∧
  (∀ embedding w response,
     http_reply E (trace w) paris_request = Ok response → status_code response ≠ 200 →
     ∃ w1 rest,
       Reasoning.tool_cell E w = (Ok "Temperature: ?°C, Wind: ? km/h.", w1) ∧
       new_events w1
         (Reasoning.final_cell E embedding "Temperature: ?°C, Wind: ? km/h." w1).2 =
         EvQaRun (Reasoning.qa embedding)
           ("The weather in Paris today is: Temperature: ?°C, Wind: ? km/h.." +:+ nl
            +:+ "Based on this and local travel tips, what should a traveler know?")
         :: rest) ∧
  (∀ embedding w e,
     http_reply E (trace w) paris_request = Raise e →
     (Basic.step4 E embedding w).1 = Raise e ∧
     qa_queries (new_events w (Basic.step4 E embedding w).2) = [] ∧
     (Reasoning.tool_cell E w).1 = Raise e) ∧
  (∀ embedding w response,
     http_reply E (trace w) paris_request = Ok response → status_code response = 200 →
     (∀ d, json response ≠ Ok (PyDict d)) →
     ∃ e,
       (Basic.step4 E embedding w).1 = Raise e ∧
       qa_queries (new_events w (Basic.step4 E embedding w).2) = [] ∧
       (Reasoning.tool_cell E w).1 = Raise e) ∧
  (∀ embedding w response body current,
     http_reply E (trace w) paris_request = Ok response → status_code response = 200 →
     json response = Ok (PyDict body) → dict_lookup "current" body = Some current →
     (∀ d, current ≠ PyDict d) →
     (Basic.step4 E embedding w).1 = Raise AttributeError ∧
     qa_queries (new_events w (Basic.step4 E embedding w).2) = [] ∧
     (Reasoning.tool_cell E w).1 = Raise AttributeError) ∧
  (∀ w embedding w1 e,
     step2 E w = (Ok embedding, w1) →
     (Basic.step4 E embedding w1).1 = Raise e →
     qa_queries (new_events w1 (Basic.step4 E embedding w1).2) = [] →
     (Basic.script E w).1 = Raise e ∧
     qa_queries (new_events w (Basic.script E w).2) = []) ∧
  (∀ w embedding w1 response w2 e,
     step2 E w = (Ok embedding, w1) → Reasoning.reasoning_cell E w1 = (Ok response, w2) →
     (Reasoning.tool_cell E w2).1 = Raise e →
     (Reasoning.script E w).1 = Raise e ∧
     qa_queries (new_events w (Reasoning.script E w).2) = []).
Proof.
  assert (∀ embedding w e,
            tool_result basic_error_marker (http_reply E (trace w) paris_request) = Raise e →
            (Basic.step4 E embedding w).1 = Raise e ∧
            qa_queries (new_events w (Basic.step4 E embedding w).2) = []) as Hbasic_halts.
  { intros embedding w e Hresult. rewrite basic_step4_run, Hresult. cbn zeta. cbn [fst snd].
    by rewrite new_events_log. }
  assert (∀ w e,
            tool_result reasoning_error_marker (http_reply E (trace w) paris_request) = Raise e →
            (Reasoning.tool_cell E w).1 = Raise e) as Hreasoning_halts.
  { intros w e Hresult. by rewrite reasoning_tool_cell_run, Hresult. }
  split; [|split; [|split; [|split; [|split; [|split; [|split; [|split; [|split; [|split]]]]]]]]].
  - intros d w. rewrite basic_weather_text_run.
    exists (fmt E (dict_get d "temperature_2m" (PyStr "?"))),
           (fmt E (dict_get d "wind_speed_10m" (PyStr "?"))).
    split; [reflexivity|]. split; apply fmt_missing.
  - intros d w. rewrite reasoning_weather_text_run.
    exists (fmt E (dict_get d "temperature_2m" (PyStr "?"))),
           (fmt E (dict_get d "wind_speed_10m" (PyStr "?"))).
    split; [reflexivity|]. split; apply fmt_missing.
  - intros embedding w d Hweather.
    rewrite basic_get_weather_run in Hweather. cbn [fst] in Hweather.
    rewrite basic_step4_run, Hweather. cbn zeta. cbn [log trace].
    exists (basic_text E d). unfold Basic.query. cbn zeta.
    destruct (qa_reply E _ _ _) as [final_response|e].
    all: eexists; split; [intros w'; apply basic_weather_text_run|split; [|reflexivity]].
    all: apply new_events_app; unfold log; cbn [snd trace]; rewrite <- ?app_assoc; reflexivity.
  - intros embedding w response Hreply Hstatus.
    rewrite basic_step4_run, Hreply, tool_result_failed by done. cbn zeta.
    unfold basic_error_marker.
    destruct (qa_reply E _ _ _) as [final_response|e].
    all: eexists; apply new_events_app.
    all: unfold log; cbn [snd trace]; rewrite <- ?app_assoc; reflexivity.
  - intros embedding w d Hweather.
    rewrite reasoning_get_weather_run in Hweather. cbn [fst] in Hweather.
    fold paris_request in Hweather.
    rewrite reasoning_tool_cell_run, Hweather. cbn zeta.
    exists (reasoning_text E d). eexists.
    rewrite reasoning_final_cell_run. unfold Reasoning.query. cbn zeta.
    destruct (qa_reply E _ _ _) as [final_answer|e].
    all: eexists; split; [intros w'; apply reasoning_weather_text_run|].
    all: split; [reflexivity|]; split; [|reflexivity].
    all: apply new_events_app; unfold log; cbn [snd trace]; rewrite <- ?app_assoc; reflexivity.
  - intros embedding w response Hreply Hstatus.
    rewrite reasoning_tool_cell_run, Hreply, tool_result_failed by done. cbn zeta.
    eexists. rewrite reasoning_final_cell_run. cbn zeta.
    destruct (qa_reply E _ _ _) as [final_answer|e].
    all: eexists; split; [reflexivity|].
    all: apply new_events_app; unfold log; cbn [snd trace]; rewrite <- ?app_assoc; reflexivity.
  - intros embedding w e Hreply.
    destruct (Hbasic_halts embedding w e) as [? ?]; [by rewrite Hreply|].
    split; [done|]. split; [done|]. apply Hreasoning_halts. by rewrite Hreply.
  - intros embedding w response Hreply H200 Hshape.
    assert (∃ e, ∀ marker, tool_result marker (Ok response) = Raise e) as [e Hresult].
    { destruct (json response) as [body|e] eqn:Hjson.
      - exists AttributeError. intros marker. rewrite tool_result_200, Hjson by done.
        destruct body; try done. by destruct (Hshape d).
      - exists e. intros marker. by rewrite tool_result_200, Hjson. }
    exists e.
    destruct (Hbasic_halts embedding w e) as [? ?]; [by rewrite Hreply|].
    split; [done|]. split; [done|]. apply Hreasoning_halts. by rewrite Hreply.
  - intros embedding w response body current Hreply H200 Hbody Hcurrent Hshape.
    assert (∀ marker, tool_result marker (Ok response) = Ok current) as Hresult.
    { intros marker. rewrite tool_result_200, Hbody by done.
      unfold dict_get. by rewrite Hcurrent. }
    rewrite basic_step4_run, reasoning_tool_cell_run, Hreply, !Hresult. cbn zeta.
    destruct current; cbn [fst snd]; rewrite ?new_events_log; try done.
    by destruct (Hshape d).
  - intros w embedding w1 e Hstep2 Hstep4 Hquiet.
    rewrite basic_script_unfold, Hstep2. split; [done|].
    destruct (step2_no_query E w) as (evs & Htrace & Hevs). rewrite Hstep2 in Htrace.
    rewrite (new_events_trans w w1 _ evs Htrace (basic_step4_extends E embedding w1)).
    unfold qa_queries in *. by rewrite omap_app, Hevs, Hquiet.
  - intros w embedding w1 response w2 e Hstep2 Hcell Htool.
    rewrite reasoning_script_unfold, Hstep2, Hcell.
    destruct (step2_no_query E w) as (evs & Htrace & Hevs). rewrite Hstep2 in Htrace.
    rewrite reasoning_cell_run in Hcell. cbn zeta in Hcell.
    destruct (llm_reply E _ _ _) as [response'|e']; [|done].
    injection Hcell as -> <-.
    rewrite reasoning_tool_cell_run in Htool |- *. cbn zeta in Htool |- *.
    destruct (tool_result _ _) as [[| | | | | |d]|e']; simplify_eq/=.
    all: split; [done|].
    all: erewrite (new_events_app w)
           by (unfold log; cbn [trace]; rewrite Htrace, <- ?app_assoc; reflexivity).
    all: unfold qa_queries in *; by rewrite omap_app, Hevs.
Qed.

Lemma weather_text_survives_missing_values_witness :
  Basic.weather_text (sample_env (Ok service_unavailable) "")
      (PyDict [("error", PyStr "Failed to fetch weather data.")]) empty_world
    = (Ok "The current temperature in Paris is ?°C with wind speed ? km/h.", empty_world) ∧
  (Basic.step4 (sample_env (Ok service_unavailable) "") (mkOllamaEmbeddings "llama3")
     empty_world).1 = Ok tt ∧
  (Reasoning.tool_cell (sample_env (Ok service_unavailable) "") empty_world).1
    = Ok "Temperature: ?°C, Wind: ? km/h." ∧
  (Basic.step4 unreachable_env (mkOllamaEmbeddings "llama3") empty_world).1
    = Raise RequestException.
Proof.
  pose proof (weather_text_survives_missing_values (sample_env (Ok service_unavailable) ""))
    as (Hbasic & _ & Hstep4 & _ & _ & Htool & _).
  split; [|split; [|split]].
  - destruct (Hbasic [("error", PyStr "Failed to fetch weather data.")] empty_world)
      as (temperature & wind_speed & Htext & Htemperature & Hwind).
    rewrite Htext, (Htemperature eq_refl), (Hwind eq_refl). reflexivity.
  - destruct (Hstep4 (mkOllamaEmbeddings "llama3") empty_world
                [("error", PyStr "Failed to fetch weather data.")] eq_refl)
      as (text & rest & _ & _ & Hresult).
    rewrite Hresult. reflexivity.
  - destruct (Htool (mkOllamaEmbeddings "llama3") empty_world service_unavailable eq_refl)
      as (w1 & rest & Hcell & _).
    + simpl. lia.
    + by rewrite Hcell.
  - pose proof (weather_text_survives_missing_values unreachable_env)
      as (_ & _ & _ & _ & _ & _ & Hhalts & _).
    exact (proj1 (Hhalts (mkOllamaEmbeddings "llama3") empty_world RequestException eq_refl)).
Defined.

(** ** Sample runs *)

(** With the services up the basic script runs to its end. *)
Example basic_script_completes :
  (Basic.script (sample_env (Ok paris_weather) "") empty_world).1 = Ok tt ∧
  interactions (trace (Basic.script (sample_env (Ok paris_weather) "") empty_world).2)
    = [EmbedStore; HttpFetch; PromptGenerate].
Proof. split; vm_compute; reflexivity. Qed.

(** A 200 response with an array for a body halts it after the fetch. *)
Example basic_script_halts_on_array :
  (Basic.script (sample_env (Ok array_body) "") empty_world).1 = Raise AttributeError ∧
  interactions (trace (Basic.script (sample_env (Ok array_body) "") empty_world).2)
    = [EmbedStore; HttpFetch].
Proof. split; vm_compute; reflexivity. Qed.

(** The documents the basic script embeds when it starts from an empty
    directory, in the order in which the directory lists them. *)
Example basic_script_embeds_the_tips :
  ∃ rest,
    service_calls (trace (Basic.script (sample_env (Ok paris_weather) "") empty_world).2)
    = EvFromDocuments
        [mkDocument "Always check the local metro schedule to avoid delays." "rag_docs/doc_1.txt";
         mkDocument "Wear comfortable walking shoes when visiting tourist spots in Paris."
           "rag_docs/doc_2.txt";
         mkDocument "In Paris, it's best to carry an umbrella in spring." "rag_docs/doc_0.txt"]
        vectordb :: rest.
Proof. eexists. vm_compute. reflexivity. Qed.


(** * More of the scripts *)

(** ** Paths *)

Lemma dirname_no_slash p : has_slash p = false → dirname p = "".
Proof.
  destruct p as [|c rest]; [done|]. cbn.
  destruct (Ascii.eqb c _); [done|]. by intros ->.
Qed.

Lemma basename_no_slash p : has_slash p = false → basename p = p.
Proof. destruct p as [|c rest]; [done|]. cbn [basename]. by intros ->. Qed.

Lemma path_join p : has_slash p = true → dirname p +:+ "/" +:+ basename p = p.
Proof.
  induction p as [|c rest IH]; [done|]. intros Hp.
  cbn [dirname basename]. rewrite Hp.
  destruct (has_slash rest) eqn:Hrest.
  - change (String c (dirname rest +:+ "/" +:+ basename rest) = String c rest).
    by rewrite IH.
  - cbn in Hp. rewrite Hrest in Hp.
    destruct (Ascii.eqb_spec c (Ascii.ascii_of_nat 47)) as [->|]; [|done].
    by rewrite basename_no_slash.
Qed.

Lemma rag_docs_entry_path p : dirname p = "rag_docs" → "rag_docs/" +:+ basename p = p.
Proof.
  intros Hdir. destruct (has_slash p) eqn:Hp.
  - rewrite <- (path_join p Hp) at 2. by rewrite Hdir.
  - by rewrite dirname_no_slash in Hdir.
Qed.

Lemma elem_of_rag_listing m p :
  p ∈ rag_listing m ↔ is_Some (m !! p) ∧ dirname p = "rag_docs".
Proof.
  unfold rag_listing. rewrite list_elem_of_filter, list_elem_of_fmap. split.
  - intros [Hdir ([p' n] & -> & Hin)]. apply elem_of_map_to_list in Hin. by eauto.
  - intros [[n Hn] Hdir]. split; [done|]. exists (p, n). by rewrite elem_of_map_to_list.
Qed.

Lemma rag_listing_NoDup m : NoDup (rag_listing m).
Proof. apply NoDup_filter, NoDup_fst_map_to_list. Qed.

(** ** Loading *)

Lemma text_at_Some m p text :
  text_at m p = Some text ↔ ∃ bytes, m !! p = Some (File bytes) ∧ decode_text bytes = Some text.
Proof.
  unfold text_at. destruct (m !! p) as [[bytes|]|]; cbn.
  - split; [by exists bytes|]. by intros (bytes' & [= <-] & ?).
  - split; [done|]. by intros (bytes' & [=] & ?).
  - split; [done|]. by intros (bytes' & [=] & ?).
Qed.

Lemma load_all_cons file files all_docs w :
  load_all (file :: files) all_docs w =
    match text_at (fs w) ("rag_docs/" +:+ file) with
    | Some text =>
      load_all files (all_docs ++ [mkDocument text ("rag_docs/" +:+ file)])
        (log (EvLoad ("rag_docs/" +:+ file)) w)
    | None => (Raise RuntimeError, log (EvLoad ("rag_docs/" +:+ file)) w)
    end.
Proof.
  cbn [load_all]. unfold mbind at 1. unfold M_bind, text_loader_load, text_at. cbn [log fs].
  destruct (fs w !! ("rag_docs/" +:+ file)) as [[bytes|]|]; cbn; try done.
  by destruct (decode_text bytes).
Qed.

Lemma mapM_read_doc_cons m file files :
  mapM (read_doc m) (file :: files) =
    match text_at m ("rag_docs/" +:+ file) with
    | Some text =>
      match mapM (read_doc m) files with
      | Some docs => Some (mkDocument text ("rag_docs/" +:+ file) :: docs)
      | None => None
      end
    | None => None
    end.
Proof.
  cbn [mapM].
  assert (read_doc m file =
            match text_at m ("rag_docs/" +:+ file) with
            | Some text => Some (mkDocument text ("rag_docs/" +:+ file))
            | None => None
            end) as -> by done.
  by destruct (text_at m ("rag_docs/" +:+ file)).
Qed.

Lemma load_all_run files all_docs w :
  fs (load_all files all_docs w).2 = fs w ∧
  (load_all files all_docs w).1 =
    match mapM (read_doc (fs w)) files with
    | Some docs => Ok (all_docs ++ docs)%list
    | None => Raise RuntimeError
    end.
Proof.
  revert all_docs w. induction files as [|file files IH]; intros all_docs w.
  - cbn. by rewrite app_nil_r.
  - rewrite load_all_cons, mapM_read_doc_cons.
    destruct (text_at (fs w) ("rag_docs/" +:+ file)) as [text|]; [|done].
    destruct (IH (all_docs ++ [mkDocument text ("rag_docs/" +:+ file)])%list
                 (log (EvLoad ("rag_docs/" +:+ file)) w)) as [-> ->].
    split; [done|]. cbn [log fs].
    destruct (mapM (read_doc (fs w)) files); [|done].
    by rewrite <- app_assoc.
Qed.

Lemma load_and_split_run E w :
  fs (load_and_split E w).2 = fs w ∧
  (load_and_split E w).1 =
    match fs w !! "rag_docs" with
    | Some Dir =>
      match mapM (read_doc (fs w)) (basename <$> rag_listing (fs w)) with
      | Some all_docs => Ok (split_documents E 300 50 all_docs)
      | None => Raise RuntimeError
      end
    | Some (File _) => Raise NotADirectoryError
    | None => Raise FileNotFoundError
    end.
Proof.
  unfold load_and_split, mbind, M_bind, listdir. cbn [log fs].
  destruct (fs w !! "rag_docs") as [[c|]|]; try done.
  fold (rag_listing (fs w)).
  destruct (load_all_run (basename <$> rag_listing (fs w)) [] (log (EvListdir "rag_docs") w))
    as [Hfs Hrun].
  destruct (load_all _ _ _) as [[all_docs|e] w']. all: cbn in *.
  - split; [done|]. by destruct (mapM _ _); simplify_eq.
  - split; [done|]. by destruct (mapM _ _); simplify_eq.
Qed.

(** The documents loaded from a directory that holds only text files: one
    for each path of the listing, in its order. *)
Lemma load_listing m :
  only_text_in_rag_docs m →
  mapM (read_doc m) (basename <$> rag_listing m) = Some (loaded m (rag_listing m)).
Proof.
  intros Htext. apply mapM_Some_2, Forall2_fmap, Forall_Forall2_diag, Forall_forall.
  intros p Hp. apply elem_of_rag_listing in Hp as [[n Hn] Hdir].
  unfold read_doc. rewrite (rag_docs_entry_path p Hdir).
  destruct (Htext p n Hn Hdir) as [text Htext_n].
  assert (text_at m p = Some text) as -> by (unfold text_at; by rewrite Hn).
  done.
Qed.

Lemma load_and_split_ok E w :
  fs w !! "rag_docs" = Some Dir → only_text_in_rag_docs (fs w) →
  (load_and_split E w).1 = Ok (split_documents E 300 50 (loaded (fs w) (rag_listing (fs w)))).
Proof.
  intros Hdir Htext. destruct (load_and_split_run E w) as [_ ->].
  by rewrite Hdir, load_listing.
Qed.

(** A run of the loop that completes has read every entry of the directory
    as text. *)
Lemma load_and_split_complete E w splits :
  (load_and_split E w).1 = Ok splits →
  fs w !! "rag_docs" = Some Dir ∧ only_text_in_rag_docs (fs w) ∧
  splits = split_documents E 300 50 (loaded (fs w) (rag_listing (fs w))).
Proof.
  intros Hrun. destruct (load_and_split_run E w) as [_ Heq]. rewrite Heq in Hrun.
  destruct (fs w !! "rag_docs") as [[c|]|]; try done.
  destruct (mapM _ _) as [all_docs|] eqn:Hall; [|done].
  assert (only_text_in_rag_docs (fs w)) as Htext.
  { intros p n Hn Hdir.
    apply mapM_Some_1 in Hall.
    assert (basename p ∈ basename <$> rag_listing (fs w)) as Hin.
    { apply list_elem_of_fmap_2, elem_of_rag_listing. by eauto. }
    apply list_elem_of_lookup in Hin as [i Hi].
    destruct (Forall2_lookup_l _ _ _ _ _ Hall Hi) as (d & _ & Hd).
    unfold read_doc in Hd. rewrite (rag_docs_entry_path p Hdir) in Hd.
    unfold text_at in Hd. rewrite Hn in Hd. cbn in Hd.
    destruct (node_text n) as [text|]; [by eexists|done]. }
  split; [done|]. split; [done|].
  rewrite load_listing in Hall by done. by simplify_eq.
Qed.

Lemma elem_of_loaded m text p :
  only_text_in_rag_docs m →
  mkDocument text p ∈ loaded m (rag_listing m) ↔ text_at m p = Some text ∧ dirname p = "rag_docs".
Proof.
  intros Htext. unfold loaded. rewrite list_elem_of_fmap. split.
  - intros (q & Heq & Hq). injection Heq as -> ->.
    apply elem_of_rag_listing in Hq as [[n Hn] Hdir]. split; [|done].
    destruct (Htext q n Hn Hdir) as [text Htext_n].
    unfold text_at. rewrite Hn. cbn. by rewrite Htext_n.
  - intros [Hp Hdir]. exists p. rewrite Hp. split; [done|].
    apply elem_of_rag_listing. split; [|done].
    unfold text_at in Hp. by destruct (m !! p).
Qed.

Lemma loaded_sources m paths : source <$> loaded m paths = paths.
Proof.
  unfold loaded. rewrite <- list_fmap_compose.
  change (id <$> paths = paths). apply list_fmap_id.
Qed.

(** X1, lines 28-35: what the load loop has read when it completes.  Every
    entry directly under [rag_docs] was a regular file whose bytes are UTF-8
    text, and each is loaded once, with the text that reading decodes (line
    ends as LF) and with its path as the source; nothing else is loaded, the
    files are left as they are, and what comes out is what the splitter
    makes of these documents. *)
Theorem load_and_split_loads_every_file E w splits :
  (load_and_split E w).1 = Ok splits →
  ∃ all_docs,
    splits = split_documents E 300 50 all_docs ∧
    NoDup (source <$> all_docs) ∧
    (∀ text p,
       mkDocument text p ∈ all_docs ↔
       dirname p = "rag_docs" ∧
       ∃ bytes, fs w !! p = Some (File bytes) ∧ utf8_valid bytes = true ∧
                text = universal_newlines bytes) ∧
    (∀ p n, fs w !! p = Some n → dirname p = "rag_docs" →
       ∃ bytes, n = File bytes ∧ utf8_valid bytes = true) ∧
    fs w !! "rag_docs" = Some Dir ∧
    fs (load_and_split E w).2 = fs w.
Proof.
  intros Hrun. apply load_and_split_complete in Hrun as (Hdir & Htext & ->).
  eexists. split; [reflexivity|]. split; [|split; [|split; [|split]]].
  - rewrite loaded_sources. apply rag_listing_NoDup.
  - intros text p. rewrite elem_of_loaded, text_at_Some by done. unfold decode_text. split.
    + intros [(bytes & Hp & Hdecode) Hpdir]. split; [done|]. exists bytes.
      destruct (utf8_valid bytes); by simplify_eq.
    + intros [Hpdir (bytes & Hp & Hvalid & ->)]. split; [|done]. exists bytes.
      by rewrite Hvalid.
  - intros p n Hn Hpdir. destruct (Htext p n Hn Hpdir) as [text Hnode].
    destruct n as [bytes|]; [|done]. exists bytes. split; [done|].
    cbn in Hnode. unfold decode_text in Hnode. by destruct (utf8_valid bytes).
  - done.
  - by destruct (load_and_split_run E w).
Qed.

Lemma load_and_split_loads_every_file_witness :
  ∃ all_docs,
    (load_and_split (sample_env (Ok paris_weather) "") world_with_dos_file).1 = Ok all_docs ∧
    mkDocument ("Visit the Louvre." +:+ nl +:+ "Book ahead.") "rag_docs/dos.txt" ∈ all_docs.
Proof.
  destruct (load_and_split_loads_every_file (sample_env (Ok paris_weather) "")
              world_with_dos_file
              [mkDocument ("Visit the Louvre." +:+ nl +:+ "Book ahead.") "rag_docs/dos.txt"])
    as (all_docs & Hsplits & _ & Hin & _).
  - vm_compute. reflexivity.
  - exists all_docs. split.
    + cbn [sample_env split_documents] in Hsplits. rewrite <- Hsplits.
      vm_compute. reflexivity.
    + apply Hin. split; [reflexivity|]. exists dos_text.
      split; [reflexivity|]. split; vm_compute; reflexivity.
Defined.

(** A file that is not text halts the loop. *)
Example binary_file_halts_the_load :
  (load_and_split (sample_env (Ok paris_weather) "") world_with_binary_file).1
    = Raise RuntimeError.
Proof. vm_compute. reflexivity. Qed.

(** ** Saving, then loading *)

(** The file system after a run of the saving step that completes. *)
Lemma save_docs_ok_fs w w1 :
  save_docs w = (Ok tt, w1) →
  fs w1 = foldl (fun m doc => <[doc.1 := File doc.2]> m) (with_docs_dir (fs w)) doc_files ∧
  with_docs_dir (fs w) !! "rag_docs" = Some Dir.
Proof.
  rewrite save_docs_run. intros Hrun.
  assert (∀ c, fs w !! "rag_docs" ≠ Some (File c)) as Hnofile.
  { intros c Hc. by rewrite Hc in Hrun. }
  split; [|by apply with_docs_dir_lookup].
  destruct (write_all doc_files (with_docs_dir (fs w))) as [[r m] evs] eqn:Hwrite.
  assert (r = Ok tt ∧ fs w1 = m) as [-> ->].
  { destruct (fs w !! "rag_docs") as [[c|]|]; by simplify_eq. }
  by apply write_all_ok in Hwrite as [-> _].
Qed.

Lemma save_docs_ok_lookup w w1 :
  save_docs w = (Ok tt, w1) →
  (∀ p t, (p, t) ∈ doc_files → fs w1 !! p = Some (File t)) ∧
  fs w1 !! "rag_docs" = Some Dir ∧
  (∀ p, p ∉ doc_files.*1 → p ≠ "rag_docs" → fs w1 !! p = fs w !! p).
Proof.
  intros Hrun. apply save_docs_ok_fs in Hrun as [-> Hdir].
  cbn [foldl doc_files zip zip_with rag_docs fst snd].
  split; [|split].
  - intros p t Hin. repeat (apply elem_of_cons in Hin as [Heq|Hin]; [injection Heq as -> ->|]).
    + rewrite ?lookup_insert_ne by done. by rewrite lookup_insert_eq.
    + rewrite ?lookup_insert_ne by done. by rewrite lookup_insert_eq.
    + by rewrite lookup_insert_eq.
    + by apply elem_of_nil in Hin.
  - by rewrite ?lookup_insert_ne by done.
  - intros p Hp Hne. cbn in Hp. rewrite !not_elem_of_cons in Hp.
    destruct Hp as (? & ? & ? & _).
    rewrite !lookup_insert_ne by done. by apply with_docs_dir_other.
Qed.

Lemma doc_path_dirname p : p ∈ doc_files.*1 → dirname p = "rag_docs" ∧ p ≠ "rag_docs".
Proof.
  rewrite doc_files_paths. intros Hin.
  repeat (apply elem_of_cons in Hin as [->|Hin]; [done|]). by apply elem_of_nil in Hin.
Qed.

Lemma doc_path_text p : p ∈ doc_files.*1 → ∃ t, (p, t) ∈ doc_files.
Proof.
  intros Hin. apply list_elem_of_fmap in Hin as ([p' t] & -> & Hin). by exists t.
Qed.

Lemma rag_docs_not_an_entry p : dirname p = "rag_docs" → p ≠ "rag_docs".
Proof. by intros Hdir ->. Qed.

(** The tips are ASCII without a line end: they read back as written. *)
Lemma tips_decode p t : (p, t) ∈ doc_files → decode_text t = Some t.
Proof.
  cbn [doc_files zip zip_with rag_docs]. intros Hin.
  repeat (apply elem_of_cons in Hin as [Heq|Hin]; [injection Heq as -> ->; by vm_compute|]).
  by apply elem_of_nil in Hin.
Qed.

Lemma tip_documents_loaded d :
  d ∈ tip_documents ↔ (source d, page_content d) ∈ doc_files.
Proof.
  destruct d as [c p]. cbn [source page_content].
  change tip_documents with
    [mkDocument "In Paris, it's best to carry an umbrella in spring." "rag_docs/doc_0.txt";
     mkDocument "Always check the local metro schedule to avoid delays." "rag_docs/doc_1.txt";
     mkDocument "Wear comfortable walking shoes when visiting tourist spots in Paris."
       "rag_docs/doc_2.txt"].
  cbn [doc_files zip zip_with rag_docs].
  rewrite !elem_of_cons, !elem_of_nil.
  split; intros [H|[H|[H|[]]]]; injection H as -> ->; auto.
Qed.

(** After a run of the saving step in a directory that held nothing but the
    documents, the directory lists the three documents and nothing else. *)
Lemma saved_listing w w1 :
  save_docs w = (Ok tt, w1) → only_docs_in_rag_docs (fs w) →
  fs w1 !! "rag_docs" = Some Dir ∧
  only_text_in_rag_docs (fs w1) ∧
  loaded (fs w1) (rag_listing (fs w1)) ≡ₚ tip_documents.
Proof.
  intros Hrun Honly.
  destruct (save_docs_ok_lookup w w1 Hrun) as (Hdocs & Hdir & Hother).
  assert (only_text_in_rag_docs (fs w1)) as Htext.
  { intros p n Hn Hp. destruct (decide (p ∈ doc_files.*1)) as [Hin|Hnotin].
    - destruct (doc_path_text p Hin) as [t Ht]. rewrite (Hdocs p t Ht) in Hn.
      injection Hn as <-. exists t. by apply (tips_decode p).
    - rewrite Hother in Hn by (done || by apply rag_docs_not_an_entry).
      by destruct Hnotin; apply (Honly p n). }
  split; [done|]. split; [done|].
  apply NoDup_Permutation.
  - apply (NoDup_fmap_1 source). rewrite loaded_sources. apply rag_listing_NoDup.
  - apply (NoDup_fmap_1 source). apply (bool_decide_unpack _). by vm_compute.
  - intros [c p]. rewrite elem_of_loaded, tip_documents_loaded, text_at_Some by done.
    cbn [source page_content]. split.
    + intros [(bytes & Hp & Hdecode) Hpdir].
      destruct (decide (p ∈ doc_files.*1)) as [Hin|Hnotin].
      * destruct (doc_path_text p Hin) as [t Ht]. rewrite (Hdocs p t Ht) in Hp.
        injection Hp as <-. rewrite (tips_decode p t Ht) in Hdecode. by injection Hdecode as <-.
      * rewrite Hother in Hp by (done || by apply rag_docs_not_an_entry).
        by destruct Hnotin; apply (Honly p (File bytes)).
    + intros Hin. split.
      * exists c. split; [by apply Hdocs|by apply (tips_decode p)].
      * apply doc_path_dirname, list_elem_of_fmap. by exists (p, c).
Qed.

(** X2, lines 23-35: the tips written are the documents read back.  When
    [rag_docs] holds nothing but (possibly) the three document files before
    the run, the loop that follows the saving step loads exactly the three
    tips, each once and with its file as the source, in the order of the
    listing. *)
Theorem saved_tips_are_loaded E w w1 :
  save_docs w = (Ok tt, w1) → only_docs_in_rag_docs (fs w) →
  ∃ all_docs,
    (load_and_split E w1).1 = Ok (split_documents E 300 50 all_docs) ∧
    all_docs ≡ₚ tip_documents ∧
    fs (load_and_split E w1).2 = fs w1.
Proof.
  intros Hrun Honly.
  destruct (saved_listing w w1 Hrun Honly) as (Hdir & Htext & Hperm).
  eexists. split; [by apply load_and_split_ok|]. split; [exact Hperm|].
  by destruct (load_and_split_run E w1).
Qed.

Lemma saved_tips_are_loaded_witness :
  ∃ all_docs,
    (load_and_split (sample_env (Ok paris_weather) "") (save_docs empty_world).2).1
      = Ok all_docs ∧
    all_docs ≡ₚ tip_documents.
Proof.
  destruct (saved_tips_are_loaded (sample_env (Ok paris_weather) "") empty_world
              (save_docs empty_world).2) as (all_docs & Hrun & Hperm & _).
  - reflexivity.
  - apply (bool_decide_unpack _). by vm_compute.
  - exists all_docs. split; [exact Hrun|exact Hperm].
Defined.

Lemma prepare_unfold E w :
  prepare E w =
    match save_docs w with
    | (Ok _, w1) => load_and_split E w1
    | (Raise e, w1) => (Raise e, w1)
    end.
Proof. reflexivity. Qed.

(** The documents that step 2 hands to the vector database are the ones the
    preparation returns. *)
Lemma step2_first_call E w splits :
  (prepare E w).1 = Ok splits →
  ∃ rest,
    service_calls (new_events w (step2 E w).2) = EvFromDocuments splits vectordb :: rest.
Proof.
  intros Hprepare.
  destruct (prepare_fs_events E w) as (local & Htrace & Hlocal).
  pose proof (fun rest => proj1 (proj2 (after_fs_events local rest Hlocal))) as Hafter.
  rewrite step2_unfold.
  destruct (prepare E w) as [r w2]. cbn [fst snd] in *. subst r.
  rewrite embed_and_persist_run. cbn zeta.
  destruct (chroma_from_documents E _ _ _) as [[]|e];
    [destruct (chroma_persist E _ _) as [[]|e]|].
  all: eexists.
  all: match goal with
       | |- context [new_events ?w ?w'] =>
         erewrite (new_events_app w w')
           by (unfold log; cbn [trace]; rewrite Htrace, <- ?app_assoc; reflexivity)
       end.
  all: rewrite Hafter; reflexivity.
Qed.

(** X3, lines 23-40: a file that is already in [rag_docs] is embedded with the
    tips.  When the saving and the loading complete, a regular file that was
    directly under [rag_docs] under another name than the three documents is
    still there with its bytes, these bytes are UTF-8 text, and the document
    with that text (line ends as LF) and that path is among the documents
    the splitter gets, beside the three tips; what the splitter returns is
    what [Chroma.from_documents] is called with. *)
Theorem stale_file_is_loaded E w p bytes splits :
  fs w !! p = Some (File bytes) → dirname p = "rag_docs" → p ∉ doc_files.*1 →
  (prepare E w).1 = Ok splits →
  ∃ all_docs rest,
    splits = split_documents E 300 50 all_docs ∧
    utf8_valid bytes = true ∧
    mkDocument (universal_newlines bytes) p ∈ all_docs ∧
    (∀ d, d ∈ tip_documents → d ∈ all_docs) ∧
    fs (prepare E w).2 !! p = Some (File bytes) ∧
    service_calls (new_events w (step2 E w).2) =
      EvFromDocuments splits (mkChroma "./chroma_db" (mkOllamaEmbeddings "llama3")) :: rest.
Proof.
  intros Hp Hdir Hnotin Hprepare.
  destruct (step2_first_call E w splits Hprepare) as [rest Hcalls].
  rewrite prepare_unfold in Hprepare |- *.
  destruct (save_docs w) as [[[]|e] w1] eqn:Hsave; [|done].
  destruct (save_docs_ok_lookup w w1 Hsave) as (Hdocs & Hdocs_dir & Hother).
  assert (fs w1 !! p = Some (File bytes)) as Hp1.
  { rewrite Hother by (done || by apply rag_docs_not_an_entry). done. }
  apply load_and_split_complete in Hprepare as (_ & Htext & ->).
  destruct (Htext p _ Hp1 Hdir) as [text Hdecode]. cbn in Hdecode.
  unfold decode_text in Hdecode.
  destruct (utf8_valid bytes) eqn:Hvalid; [|done]. injection Hdecode as <-.
  eexists _, rest. split; [reflexivity|]. split; [done|]. split; [|split; [|split]].
  - apply elem_of_loaded; [done|]. split; [|done].
    apply text_at_Some. exists bytes. split; [done|]. unfold decode_text. by rewrite Hvalid.
  - intros [c' p'] Hin. apply tip_documents_loaded in Hin. cbn [source page_content] in Hin.
    apply elem_of_loaded; [done|]. split.
    + apply text_at_Some. exists c'. split; [by apply Hdocs|by apply (tips_decode p')].
    + apply doc_path_dirname, list_elem_of_fmap. by exists (p', c').
  - by destruct (load_and_split_run E w1) as [-> _].
  - exact Hcalls.
Qed.

Lemma stale_file_is_loaded_witness :
  ∃ all_docs rest,
    mkDocument "Visit the Louvre on Monday." "rag_docs/old.txt" ∈ all_docs ∧
    length all_docs = 4%nat ∧
    service_calls (new_events world_with_stale_file
                     (step2 (sample_env (Ok paris_weather) "") world_with_stale_file).2)
      = EvFromDocuments all_docs vectordb :: rest.
Proof.
  assert (∃ splits,
            (prepare (sample_env (Ok paris_weather) "") world_with_stale_file).1 = Ok splits ∧
            length splits = 4%nat) as (splits & Hprepare & Hlength).
  { eexists. split; vm_compute; reflexivity. }
  destruct (stale_file_is_loaded (sample_env (Ok paris_weather) "") world_with_stale_file
              "rag_docs/old.txt" "Visit the Louvre on Monday." splits)
    as (all_docs & rest & Hsplits & _ & Hin & _ & _ & Hcalls).
  - reflexivity.
  - reflexivity.
  - apply (bool_decide_unpack _). by vm_compute.
  - exact Hprepare.
  - cbn [sample_env split_documents] in Hsplits. subst splits.
    exists all_docs, rest. split; [exact Hin|]. split; [exact Hlength|exact Hcalls].
Defined.

Lemma load_and_split_directory_entry E w p :
  fs w !! "rag_docs" = Some Dir → dirname p = "rag_docs" → fs w !! p = Some Dir →
  (load_and_split E w).1 = Raise RuntimeError.
Proof.
  intros Hdir Hp Hentry. destruct (load_and_split_run E w) as [_ ->]. rewrite Hdir.
  rewrite (proj2 (mapM_None (read_doc (fs w)) (basename <$> rag_listing (fs w)))); [done|].
  apply Exists_exists. exists (basename p). split.
  - apply list_elem_of_fmap_2, elem_of_rag_listing. by eauto.
  - unfold read_doc, text_at. by rewrite (rag_docs_entry_path p Hp), Hentry.
Qed.

Lemma write_all_ok_no_directory docs m m' evs p :
  write_all docs m = (Ok tt, m', evs) → p ∈ docs.*1 → m !! p ≠ Some Dir.
Proof.
  revert m evs. induction docs as [|[q t] docs IH]; intros m evs Hrun Hin.
  - by apply elem_of_nil in Hin.
  - cbn [write_all] in Hrun.
    destruct (write_all docs (<[q := File t]> m)) as [[r m''] evs'] eqn:Hrest.
    assert (m !! q ≠ Some Dir ∧ r = Ok tt ∧ m'' = m') as (Hq & -> & ->).
    { destruct (m !! q) as [[c|]|]; by simplify_eq. }
    destruct (decide (p = q)) as [->|Hne]; [done|].
    apply elem_of_cons in Hin as [?|Hin]; [done|].
    specialize (IH _ _ Hrest Hin). by rewrite lookup_insert_ne in IH.
Qed.

(** A run of the saving step that completes did not meet a directory in the
    place of a document. *)
Lemma save_docs_ok_no_directory w w1 p :
  save_docs w = (Ok tt, w1) → p ∈ doc_files.*1 → fs w !! p ≠ Some Dir.
Proof.
  rewrite save_docs_run. intros Hrun Hin.
  destruct (write_all doc_files (with_docs_dir (fs w))) as [[r m] evs] eqn:Hwrite.
  assert (r = Ok tt) as ->.
  { destruct (fs w !! "rag_docs") as [[c|]|]; by simplify_eq. }
  pose proof (write_all_ok_no_directory _ _ _ _ p Hwrite Hin) as Hp.
  by rewrite with_docs_dir_other in Hp by (by apply doc_path_dirname).
Qed.

(** X4, lines 23-40: a sub-directory of [rag_docs] halts step 2 before anything
    is embedded.  Whatever else the directory holds, the step raises and no
    service has been called: the loop hands every name of the listing to
    [TextLoader], which fails on a directory. *)
Theorem subdirectory_halts_step2 E w p :
  dirname p = "rag_docs" → fs w !! p = Some Dir →
  (∃ e, (step2 E w).1 = Raise e) ∧
  service_calls (new_events w (step2 E w).2) = [].
Proof.
  intros Hp Hentry.
  assert (∃ e, (prepare E w).1 = Raise e) as [e He].
  { rewrite prepare_unfold.
    destruct (save_docs w) as [[[]|e] w1] eqn:Hsave; [|by exists e].
    exists RuntimeError.
    destruct (save_docs_ok_lookup w w1 Hsave) as (Hdocs & Hdir & Hother).
    apply (load_and_split_directory_entry E w1 p); [done..|].
    destruct (decide (p ∈ doc_files.*1)) as [Hin|Hnotin].
    - by destruct (save_docs_ok_no_directory w w1 p Hsave Hin).
    - rewrite Hother by (done || by apply rag_docs_not_an_entry). done. }
  rewrite step2_unfold.
  destruct (prepare_fs_events E w) as (evs & Htrace & Hevs).
  destruct (prepare E w) as [[splits|e'] w1]; [done|]. cbn [fst snd] in *.
  split; [by exists e'|].
  rewrite (new_events_app w w1 evs) by done. by apply fs_events_no_interaction.
Qed.

Lemma subdirectory_halts_step2_witness :
  (step2 (sample_env (Ok paris_weather) "") world_with_subdir).1 = Raise RuntimeError ∧
  service_calls (new_events world_with_subdir
                   (step2 (sample_env (Ok paris_weather) "") world_with_subdir).2) = [].
Proof.
  destruct (subdirectory_halts_step2 (sample_env (Ok paris_weather) "") world_with_subdir
              "rag_docs/notes" eq_refl eq_refl) as [_ Hcalls].
  split; [reflexivity|exact Hcalls].
Defined.

(** ** Running the preparation again *)

Lemma save_docs_fs_only w w' :
  fs w = fs w' →
  (save_docs w).1 = (save_docs w').1 ∧ fs (save_docs w).2 = fs (save_docs w').2.
Proof.
  intros Hfs. rewrite !save_docs_run, <- Hfs.
  destruct (write_all doc_files (with_docs_dir (fs w))) as [[r m] evs].
  by destruct (fs w !! "rag_docs") as [[c|]|].
Qed.

Lemma save_docs_rerun w :
  (save_docs (save_docs w).2).1 = (save_docs w).1 ∧
  fs (save_docs (save_docs w).2).2 = fs (save_docs w).2.
Proof.
  rewrite (save_docs_run w).
  destruct (fs w !! "rag_docs") as [[c|]|] eqn:Hdir;
    [rewrite save_docs_run; cbn; by rewrite Hdir| |].
  all: assert (with_docs_dir (fs w) !! "rag_docs" = Some Dir) as Hready
         by (apply with_docs_dir_lookup; congruence).
  all: pose proof (write_all_again doc_files (with_docs_dir (fs w)) doc_files_NoDup) as Hagain.
  all: pose proof (write_all_lookup_other doc_files (with_docs_dir (fs w)) _ docs_dir_not_a_doc)
         as Hkeep.
  all: destruct (write_all doc_files (with_docs_dir (fs w))) as [[r m] evs].
  all: cbn [fst snd] in Hagain, Hkeep; rewrite Hready in Hkeep.
  all: cbn [fst snd]; rewrite save_docs_run; cbn [fs]; rewrite Hkeep.
  all: unfold with_docs_dir; rewrite Hkeep.
  all: destruct (write_all doc_files m) as [[r' m'] evs'].
  all: cbn in Hagain; by injection Hagain as -> ->.
Qed.

Lemma load_and_split_fs_only E w w' :
  fs w = fs w' → (load_and_split E w).1 = (load_and_split E w').1.
Proof.
  intros Hfs.
  destruct (load_and_split_run E w) as [_ ->].
  destruct (load_and_split_run E w') as [_ ->]. by rewrite Hfs.
Qed.

(** X5, lines 23-35: running the saving and loading part a second time gives the
    same documents (or halts on the same exception) and leaves the same file
    system: the second run overwrites each file with the text it holds, and
    the loop finds the directory as the first run left it. *)
Theorem prepare_again E w :
  (prepare E (prepare E w).2).1 = (prepare E w).1 ∧
  fs (prepare E (prepare E w).2).2 = fs (prepare E w).2.
Proof.
  rewrite (prepare_unfold E w).
  destruct (save_docs_rerun w) as [Hr Hfs].
  destruct (save_docs w) as [[[]|e] w1] eqn:Hsave; cbn [fst snd] in Hr, Hfs.
  - destruct (load_and_split_run E w1) as [Hfs1 _].
    destruct (load_and_split E w1) as [r2 w2] eqn:Hload. cbn [fst snd] in *.
    rewrite prepare_unfold.
    destruct (save_docs_fs_only w2 w1 Hfs1) as [Hr' Hfs'].
    rewrite Hr in Hr'. rewrite Hfs in Hfs'.
    destruct (save_docs w2) as [[[]|e] w3]; cbn [fst snd] in *; [|done].
    destruct (load_and_split_run E w3) as [-> _].
    rewrite (load_and_split_fs_only E w3 w1) by done.
    by rewrite Hload, Hfs'.
  - rewrite prepare_unfold. cbn [fst snd].
    destruct (save_docs w1) as [[[]|e'] w2]; cbn [fst snd] in *; [done|].
    by simplify_eq.
Qed.

(** ** The calls of whole runs *)

(** The log of step 2: calls of the file system, then the two calls of the
    vector database, as far as the step gets. *)
Lemma step2_shape E w :
  ∃ local, Forall is_fs_event local ∧
    match step2 E w with
    | (Ok embedding, w1) =>
      embedding = mkOllamaEmbeddings "llama3" ∧
      ∃ splits,
        trace w1 = (trace w ++ local ++ [EvFromDocuments splits vectordb; EvPersist vectordb])%list
    | (Raise _, w1) =>
      trace w1 = (trace w ++ local)%list ∨
      ∃ splits,
        trace w1 = (trace w ++ local ++ [EvFromDocuments splits vectordb])%list ∨
        trace w1 = (trace w ++ local ++ [EvFromDocuments splits vectordb; EvPersist vectordb])%list
    end.
Proof.
  rewrite step2_unfold.
  destruct (prepare_fs_events E w) as (local & Htrace & Hlocal).
  exists local. split; [done|].
  destruct (prepare E w) as [[splits|e] w1]; cbn [snd] in Htrace; [|by left].
  rewrite embed_and_persist_run. cbn zeta.
  destruct (chroma_from_documents E _ _ _) as [[]|e];
    [destruct (chroma_persist E _ _) as [[]|e]|].
  - split; [done|]. exists splits.
    unfold log. cbn [trace]. by rewrite Htrace, <- !app_assoc.
  - right. exists splits. right.
    unfold log. cbn [trace]. by rewrite Htrace, <- !app_assoc.
  - right. exists splits. left.
    unfold log. cbn [trace]. by rewrite Htrace, <- !app_assoc.
Qed.

(** Puts the calls of a run in the goal into the form [local ++ rest], from
    the log [Htrace] of step 2. *)
Ltac list_run_events Htrace :=
  match goal with
  | |- context [new_events ?w ?w'] =>
    erewrite (new_events_app w w')
      by (unfold log; cbn [trace]; rewrite Htrace, <- ?app_assoc; reflexivity)
  end.

(** X6, [test2.ipynb]: the service calls of the reasoning notebook.  A run
    that completes makes exactly five, in this order: [Chroma.from_documents]
    with the documents the preparation returned and [persist], the prompt of
    the reasoning cell to the model, the GET for latitude 48.8566 and
    longitude 2.3522, and [qa.run] with the query built around the weather
    text of the dict that [get_weather] returned; these are four
    interactions.  A run halted by an exception has made an initial part of
    the four interactions. *)
Theorem reasoning_script_interactions E w :
  match Reasoning.script E w with
  | (Ok _, w') =>
    interactions (new_events w w')
      = [EmbedStore; PromptGenerate; HttpFetch; PromptGenerate] ∧
    ∃ splits d,
      let weather_text :=
        "Temperature: " +:+ fmt E (dict_get d "temperature_2m" (PyStr "?"))
        +:+ "°C, Wind: " +:+ fmt E (dict_get d "wind_speed_10m" (PyStr "?")) +:+ " km/h." in
      (prepare E w).1 = Ok splits ∧
      (Reasoning.get_weather E (PyFloat 48.8566) (PyFloat 2.3522) (after_reasoning E w)).1
        = Ok (PyDict d) ∧
      service_calls (new_events w w') =
        [EvFromDocuments splits (mkChroma "./chroma_db" (mkOllamaEmbeddings "llama3"));
         EvPersist (mkChroma "./chroma_db" (mkOllamaEmbeddings "llama3"));
         EvLlmInvoke (mkOllama "llama3")
           ("You are a travel assistant. A user asks: 'What should I know before going to Paris today?'." +:+ nl
            +:+ "You have access to background tips and a weather tool you may use if helpful." +:+ nl
            +:+ "If you decide to call the weather tool, determine the correct latitude and longitude for the city." +:+ nl
            +:+ "Answer step-by-step with reasoning.");
         EvHttpGet (weather_request (PyFloat 48.8566) (PyFloat 2.3522));
         EvQaRun
           (mkRetrievalQA (mkOllama "llama3")
              (mkChroma "./chroma_db" (mkOllamaEmbeddings "llama3")))
           ("The weather in Paris today is: " +:+ weather_text +:+ "." +:+ nl
            +:+ "Based on this and local travel tips, what should a traveler know?")]
  | (Raise _, w') =>
    interactions (new_events w w')
      `prefix_of` [EmbedStore; PromptGenerate; HttpFetch; PromptGenerate]
  end.
Proof.
  unfold after_reasoning, after_step2.
  rewrite reasoning_script_unfold, step2_unfold.
  destruct (prepare_fs_events E w) as (local & Htrace & Hlocal).
  pose proof (fun rest => after_fs_events local rest Hlocal) as Hafter.
  destruct (prepare E w) as [[splits|e] w0]; cbn [fst snd] in Htrace |- *.
  - rewrite embed_and_persist_run. cbn zeta.
    destruct (chroma_from_documents E _ _ _) as [[]|e];
      [destruct (chroma_persist E _ _) as [[]|e]|].
    + cbn [snd]. rewrite reasoning_cell_run. cbn zeta.
      destruct (llm_reply E _ _ _) as [response|e]; cbn [snd].
      * rewrite reasoning_tool_cell_run, reasoning_get_weather_run.
        fold paris_request. cbn zeta. cbn [fst].
        destruct (tool_result _ _) as [[| | | | | |d]|e];
          try rewrite reasoning_final_cell_run; cbn zeta;
          try destruct (qa_reply E _ _ _) as [final_answer|e].
        all: list_run_events Htrace.
        all: rewrite (proj1 (Hafter _)).
        all: try (by (apply (bool_decide_unpack _); vm_compute)).
        split; [reflexivity|]. rewrite (proj1 (proj2 (Hafter _))).
        exists splits, d. split; [reflexivity|]. split; reflexivity.
      * list_run_events Htrace. rewrite (proj1 (Hafter _)).
        by (apply (bool_decide_unpack _); vm_compute).
    + list_run_events Htrace. rewrite (proj1 (Hafter _)).
      by (apply (bool_decide_unpack _); vm_compute).
    + list_run_events Htrace. rewrite (proj1 (Hafter _)).
      by (apply (bool_decide_unpack _); vm_compute).
  - rewrite (new_events_app w w0 local) by done.
    destruct (fs_events_no_interaction local Hlocal) as (Hnone & _).
    unfold interactions. rewrite Hnone. apply prefix_nil.
Qed.

Lemma reasoning_script_interactions_witness :
  (Reasoning.script (sample_env (Ok paris_weather) "I should check the weather.") empty_world).1
    = Ok tt ∧
  ∃ splits,
    service_calls (new_events empty_world
      (Reasoning.script (sample_env (Ok paris_weather) "I should check the weather.")
         empty_world).2) =
      [EvFromDocuments splits vectordb; EvPersist vectordb;
       EvLlmInvoke (mkOllama "llama3") Reasoning.question;
       EvHttpGet paris_request;
       EvQaRun (Reasoning.qa (mkOllamaEmbeddings "llama3"))
         ("The weather in Paris today is: Temperature: 15°C, Wind: 9 km/h.." +:+ nl
          +:+ "Based on this and local travel tips, what should a traveler know?")].
Proof.
  pose proof (reasoning_script_interactions
                (sample_env (Ok paris_weather) "I should check the weather.") empty_world)
    as Hrun.
  assert ((Reasoning.script (sample_env (Ok paris_weather) "I should check the weather.")
             empty_world).1 = Ok tt) as Hok by (vm_compute; reflexivity).
  destruct (Reasoning.script _ empty_world) as [[[]|e] w']; [|discriminate Hok].
  split; [reflexivity|].
  destruct Hrun as (_ & splits & d & _ & Hweather & Hcalls).
  exists splits. cbn [snd]. rewrite Hcalls.
  vm_compute in Hweather. injection Hweather as <-.
  reflexivity.
Defined.

(** ** What a run prints *)

Lemma prints_app l1 l2 : prints (l1 ++ l2) = (prints l1 ++ prints l2)%list.
Proof. apply omap_app. Qed.


(** X8, [test2.ipynb]: what the reasoning notebook prints.  A run that completes
    has printed three headers, each followed by its text: the answer the
    model gave to the reasoning prompt, the weather text of the dict that
    [get_weather] returned, and the answer the QA chain gave to the one
    query, which holds that weather text.  A run that halts has printed the
    first one or two of these pairs, or nothing. *)
Theorem reasoning_script_prints E w :
  match Reasoning.script E w with
  | (Ok _, w') =>
    ∃ response d final_answer,
      let weather_text :=
        "Temperature: " +:+ fmt E (dict_get d "temperature_2m" (PyStr "?"))
        +:+ "°C, Wind: " +:+ fmt E (dict_get d "wind_speed_10m" (PyStr "?")) +:+ " km/h." in
      let query :=
        "The weather in Paris today is: " +:+ weather_text +:+ "." +:+ nl
        +:+ "Based on this and local travel tips, what should a traveler know?" in
      llm_reply E (trace (after_step2 E w)) (mkOllama "llama3")
        ("You are a travel assistant. A user asks: 'What should I know before going to Paris today?'." +:+ nl
         +:+ "You have access to background tips and a weather tool you may use if helpful." +:+ nl
         +:+ "If you decide to call the weather tool, determine the correct latitude and longitude for the city." +:+ nl
         +:+ "Answer step-by-step with reasoning.")
        = Ok response ∧
      (Reasoning.get_weather E (PyFloat 48.8566) (PyFloat 2.3522) (after_reasoning E w)).1
        = Ok (PyDict d) ∧
      qa_reply E (trace (after_tool E w))
        (mkRetrievalQA (mkOllama "llama3")
           (mkChroma "./chroma_db" (mkOllamaEmbeddings "llama3")))
        query = Ok final_answer ∧
      prints (new_events w w') =
        ["🤔 LLM Initial Reasoning:"; response;
         nl +:+ "🌦️ Simulated Weather Tool Output:"; weather_text;
         nl +:+ "🧠 Final Agent Response:"; final_answer] ∧
      qa_queries (new_events w w') = [query]
  | (Raise _, w') =>
    (prints (new_events w w') = [] ∧ qa_queries (new_events w w') = []) ∨
    (∃ response,
       llm_reply E (trace (after_step2 E w)) Reasoning.llm Reasoning.question = Ok response ∧
       prints (new_events w w') = ["🤔 LLM Initial Reasoning:"; response] ∧
       qa_queries (new_events w w') = []) ∨
    (∃ response d,
       let weather_text :=
         "Temperature: " +:+ fmt E (dict_get d "temperature_2m" (PyStr "?"))
         +:+ "°C, Wind: " +:+ fmt E (dict_get d "wind_speed_10m" (PyStr "?")) +:+ " km/h." in
       llm_reply E (trace (after_step2 E w)) Reasoning.llm Reasoning.question = Ok response ∧
       (Reasoning.get_weather E (PyFloat 48.8566) (PyFloat 2.3522) (after_reasoning E w)).1
         = Ok (PyDict d) ∧
       prints (new_events w w') =
         ["🤔 LLM Initial Reasoning:"; response;
          nl +:+ "🌦️ Simulated Weather Tool Output:"; weather_text] ∧
       qa_queries (new_events w w') =
         ["The weather in Paris today is: " +:+ weather_text +:+ "." +:+ nl
          +:+ "Based on this and local travel tips, what should a traveler know?"])
  end.
Proof.
  unfold after_tool, after_reasoning, after_step2.
  rewrite reasoning_script_unfold.
  destruct (step2_shape E w) as (local & Hlocal & Hstep2).
  pose proof (fun rest => after_fs_events_silent local rest Hlocal) as Hafter.
  destruct (step2 E w) as [[embedding|e] w1]; cbn [snd].
  - destruct Hstep2 as [-> [splits Htrace]].
    rewrite reasoning_cell_run. cbn zeta.
    destruct (llm_reply E _ _ _) as [response|e] eqn:Hllm; cbn [snd].
    + rewrite reasoning_tool_cell_run, reasoning_get_weather_run.
      fold paris_request. cbn zeta. cbn [fst].
      destruct (tool_result _ _) as [[| | | | | |d]|e]; cbn [snd];
        try rewrite reasoning_final_cell_run; cbn zeta;
        try destruct (qa_reply E _ _ _) as [final_answer|e] eqn:Hqa.
      all: list_run_events Htrace.
      all: rewrite (proj1 (Hafter _)), (proj2 (Hafter _)).
      7: by exists response, d, final_answer.
      7: right; right; by exists response, d.
      all: right; left; by exists response.
    + list_run_events Htrace. rewrite (proj1 (Hafter _)), (proj2 (Hafter _)). by left.
  - left.
    destruct Hstep2 as [Htrace|[splits [Htrace|Htrace]]].
    all: rewrite (new_events_app w w1 _ Htrace).
    all: rewrite ?(proj1 (Hafter _)), ?(proj2 (Hafter _)); try done.
    rewrite <- (app_nil_r local). by rewrite (proj1 (Hafter _)), (proj2 (Hafter _)).
Qed.

Lemma reasoning_script_prints_witness :
  prints (new_events empty_world
    (Reasoning.script (sample_env (Ok paris_weather) "I should check the weather.")
       empty_world).2) =
    ["🤔 LLM Initial Reasoning:"; "I should check the weather.";
     nl +:+ "🌦️ Simulated Weather Tool Output:"; "Temperature: 15°C, Wind: 9 km/h.";
     nl +:+ "🧠 Final Agent Response:"; "Carry an umbrella."].
Proof.
  pose proof (reasoning_script_prints
                (sample_env (Ok paris_weather) "I should check the weather.") empty_world)
    as Hrun.
  assert ((Reasoning.script (sample_env (Ok paris_weather) "I should check the weather.")
             empty_world).1 = Ok tt) as Hok by (vm_compute; reflexivity).
  destruct (Reasoning.script _ empty_world) as [[[]|e] w']; [|discriminate Hok].
  destruct Hrun as (response & d & final_answer & Hllm & Hweather & Hqa & Hprints & _).
  cbn [snd]. rewrite Hprints.
  vm_compute in Hllm. injection Hllm as <-.
  vm_compute in Hweather. injection Hweather as <-.
  vm_compute in Hqa. injection Hqa as <-.
  reflexivity.
Defined.

(** ** From the response to the query *)

Lemma tool_result_current marker response body current :
  status_code response = 200 → json response = Ok (PyDict body) →
  dict_lookup "current" body = Some current →
  tool_result marker (Ok response) = Ok current.
Proof.
  intros H200 Hbody Hcurrent. rewrite tool_result_200, Hbody by done.
  unfold dict_get. by rewrite Hcurrent.
Qed.

Lemma string_append_assoc (a b c : string) : (a +:+ b) +:+ c = a +:+ (b +:+ c).
Proof.
  induction a as [|x a IH]; [done|].
  change (String x ((a +:+ b) +:+ c) = String x (a +:+ (b +:+ c))). by rewrite IH.
Qed.

Lemma fmt_present E d key v :
  dict_lookup key d = Some v → fmt E (dict_get d key (PyStr "?")) = fmt E v.
Proof. intros Hv. unfold dict_get. by rewrite Hv. Qed.

(** X9, lines 45-87 and [test2.ipynb] 71-127: on a 200 response whose [current]
    object holds the two values, the basic agent sends the QA chain one query,
    with the temperature and the wind speed of the response in it, and the
    reasoning agent's tool cell returns its text with the same two values;
    other fields of [current] and of the body do not show. *)
Theorem query_carries_the_weather E w response body current temperature wind_speed :
  http_reply E (trace w) paris_request = Ok response →
  status_code response = 200 →
  json response = Ok (PyDict body) →
  dict_lookup "current" body = Some (PyDict current) →
  dict_lookup "temperature_2m" current = Some temperature →
  dict_lookup "wind_speed_10m" current = Some wind_speed →
  (∀ embedding,
     qa_queries (new_events w (Basic.step4 E embedding w).2) =
       ["Given this weather: The current temperature in Paris is " +:+ fmt E temperature
        +:+ "°C with wind speed " +:+ fmt E wind_speed
        +:+ " km/h., what travel tips do you have for Paris?"]) ∧
  (Reasoning.tool_cell E w).1 =
    Ok ("Temperature: " +:+ fmt E temperature +:+ "°C, Wind: " +:+ fmt E wind_speed
        +:+ " km/h.").
Proof.
  intros Hreply H200 Hbody Hcurrent Htemperature Hwind. split.
  - intros embedding.
    rewrite basic_step4_run, Hreply, (tool_result_current _ _ _ _ H200 Hbody Hcurrent).
    cbn zeta. unfold Basic.query, basic_text.
    rewrite (fmt_present E _ _ _ Htemperature), (fmt_present E _ _ _ Hwind).
    destruct (qa_reply E _ _ _) as [final_response|e].
    all: erewrite new_events_app
           by (unfold log; cbn [trace]; rewrite <- ?app_assoc; reflexivity).
    all: unfold qa_queries; cbn [omap]; f_equal.
    all: by rewrite !string_append_assoc.
  - rewrite reasoning_tool_cell_run, Hreply, (tool_result_current _ _ _ _ H200 Hbody Hcurrent).
    cbn zeta. unfold reasoning_text.
    by rewrite (fmt_present E _ _ _ Htemperature), (fmt_present E _ _ _ Hwind).
Qed.

Lemma query_carries_the_weather_witness :
  qa_queries (new_events empty_world
    (Basic.step4 (sample_env (Ok text_weather) "") (mkOllamaEmbeddings "llama3")
       empty_world).2)
    = ["Given this weather: The current temperature in Paris is 15.3°C with wind speed 9.7 km/h., what travel tips do you have for Paris?"] ∧
  (Reasoning.tool_cell (sample_env (Ok text_weather) "") empty_world).1
    = Ok "Temperature: 15.3°C, Wind: 9.7 km/h.".
Proof.
  destruct (query_carries_the_weather (sample_env (Ok text_weather) "") empty_world
              text_weather _ _ (PyStr "15.3") (PyStr "9.7")
              eq_refl eq_refl eq_refl eq_refl eq_refl eq_refl) as [Hbasic Hreasoning].
  split; [exact (Hbasic (mkOllamaEmbeddings "llama3"))|exact Hreasoning].
Defined.

(** X10, lines 57-82 and [test2.ipynb] 82-127: only the status code is checked.
    On a 200 response whose [current] value is not an object ([null], a
    number, an array), [get_weather] returns that value as it is, and the
    next statement, which calls [.get] on it, raises [AttributeError]: the
    basic agent halts without a query to the QA chain and without output,
    the reasoning agent's tool cell halts. *)
Theorem current_of_another_shape_halts E w response body current :
  http_reply E (trace w) paris_request = Ok response →
  status_code response = 200 →
  json response = Ok (PyDict body) →
  dict_lookup "current" body = Some current →
  (∀ d, current ≠ PyDict d) →
  (Basic.get_weather E (PyStr "Paris") w).1 = Ok current ∧
  (∀ embedding,
     Basic.step4 E embedding w = (Raise AttributeError, log (EvHttpGet paris_request) w)) ∧
  Reasoning.tool_cell E w = (Raise AttributeError, log (EvHttpGet paris_request) w).
Proof.
  intros Hreply H200 Hbody Hcurrent Hshape.
  pose proof (fun marker => tool_result_current marker _ _ _ H200 Hbody Hcurrent) as Hresult.
  split; [|split].
  - by rewrite basic_get_weather_run, Hreply, Hresult.
  - intros embedding. rewrite basic_step4_run, Hreply, Hresult.
    destruct current; try done. by destruct (Hshape d).
  - rewrite reasoning_tool_cell_run, Hreply, Hresult.
    destruct current; try done. by destruct (Hshape d).
Qed.

Lemma current_of_another_shape_halts_witness :
  (Basic.get_weather (sample_env (Ok null_current) "") (PyStr "Paris") empty_world).1
    = Ok PyNone ∧
  (Basic.step4 (sample_env (Ok null_current) "") (mkOllamaEmbeddings "llama3") empty_world).1
    = Raise AttributeError.
Proof.
  destruct (current_of_another_shape_halts (sample_env (Ok null_current) "") empty_world
              null_current _ PyNone eq_refl eq_refl eq_refl eq_refl)
    as (Hget & Hstep4 & _).
  - intros d. discriminate.
  - split; [exact Hget|]. by rewrite Hstep4.
Defined.

(** X11, lines 47-59 and 78-87: an exception of [requests.get] is not caught.
    When the request raises (no connection, a timeout), [get_weather] raises
    the same exception after its one request; step 4 halts there, with no
    query to the QA chain and no output, and so does the tool cell of the
    reasoning notebook.  A status other than 200 is survived, an exception
    is not. *)
Theorem request_exception_halts E w e :
  http_reply E (trace w) paris_request = Raise e →
  (∀ city, Basic.get_weather E city w = (Raise e, log (EvHttpGet paris_request) w)) ∧
  (∀ embedding, Basic.step4 E embedding w = (Raise e, log (EvHttpGet paris_request) w)) ∧
  Reasoning.tool_cell E w = (Raise e, log (EvHttpGet paris_request) w).
Proof.
  intros Hreply. split; [|split].
  - intros city. by rewrite basic_get_weather_run, Hreply.
  - intros embedding. by rewrite basic_step4_run, Hreply.
  - by rewrite reasoning_tool_cell_run, Hreply.
Qed.

Lemma request_exception_halts_witness :
  Basic.step4 unreachable_env (mkOllamaEmbeddings "llama3") empty_world
    = (Raise RequestException, mkWorld ∅ [EvHttpGet paris_request]) ∧
  (Basic.script unreachable_env empty_world).1 = Raise RequestException.
Proof.
  destruct (request_exception_halts unreachable_env empty_world RequestException eq_refl)
    as (_ & Hstep4 & _).
  split; [exact (Hstep4 (mkOllamaEmbeddings "llama3"))|].
  vm_compute. reflexivity.
Defined.

(** ** When step 2 fails *)

(** X12, lines 37-89 and [test2.ipynb]: when step 2 raises (the directory cannot
    be made or read, the embedding or the persisting fails), both scripts
    end with that exception and have sent no weather request, no prompt to
    the model, no query to the QA chain, and printed nothing. *)
Theorem step2_failure_halts_everything E w e :
  (step2 E w).1 = Raise e →
  (Basic.script E w).1 = Raise e ∧
  (Reasoning.script E w).1 = Raise e ∧
  Basic.script E w = Reasoning.script E w ∧
  omap interaction_of (new_events w (Basic.script E w).2) `prefix_of` [EmbedStore; EmbedStore] ∧
  prints (new_events w (Basic.script E w).2) = [].
Proof.
  intros He.
  rewrite basic_script_unfold, reasoning_script_unfold.
  destruct (step2_shape E w) as (local & Hlocal & Hstep2).
  pose proof (fs_events_no_interaction local Hlocal) as (Hnone & _).
  pose proof (fun rest => proj1 (after_fs_events_silent local rest Hlocal)) as Hafter.
  destruct (step2 E w) as [[embedding|e'] w1]; [done|].
  cbn [fst snd] in *. injection He as ->.
  split; [done|]. split; [done|]. split; [done|].
  destruct Hstep2 as [Htrace|[splits [Htrace|Htrace]]].
  all: rewrite (new_events_app w w1 _ Htrace).
  all: rewrite ?omap_app, ?Hnone, ?Hafter.
  2,3: split; [by (apply (bool_decide_unpack _); vm_compute)|done].
  split; [apply prefix_nil|].
  rewrite <- (app_nil_r local). by rewrite Hafter.
Qed.

Lemma step2_failure_halts_everything_witness :
  (Basic.script (sample_env (Ok paris_weather) "") world_with_subdir).1 = Raise RuntimeError ∧
  prints (new_events world_with_subdir
            (Basic.script (sample_env (Ok paris_weather) "") world_with_subdir).2) = [].
Proof.
  destruct (step2_failure_halts_everything (sample_env (Ok paris_weather) "")
              world_with_subdir RuntimeError eq_refl) as (Hbasic & _ & _ & _ & Hprints).
  split; [exact Hbasic|exact Hprints].
Defined.

(** ** The weather tool of the reasoning notebook *)

(** X13, [test2.ipynb] 71-84: the tool of the reasoning notebook reads the
    response as the basic one does, with a marker of its own: a status other
    than 200 gives [{"error": "API failed."}] whatever the body; status 200
    with a JSON object gives the object's [current] value, [{}] when there is
    none; status 200 with any other body raises.  The marker comes back only
    on a status other than 200 or from a body that holds it. *)
Theorem reasoning_get_weather_by_status E lat lon w response :
  http_reply E (trace w) (weather_request lat lon) = Ok response →
  (status_code response ≠ 200 →
     (Reasoning.get_weather E lat lon w).1 = Ok (PyDict [("error", PyStr "API failed.")])) ∧
  (status_code response = 200 → ∀ d, json response = Ok (PyDict d) →
     (Reasoning.get_weather E lat lon w).1 = Ok (dict_get d "current" (PyDict []))) ∧
  (status_code response = 200 → (∀ d, json response ≠ Ok (PyDict d)) →
     ∃ e, (Reasoning.get_weather E lat lon w).1 = Raise e) ∧
  ((Reasoning.get_weather E lat lon w).1 = Ok (PyDict [("error", PyStr "API failed.")]) →
     status_code response ≠ 200 ∨
     ∃ d, json response = Ok (PyDict d) ∧
          dict_lookup "current" d = Some (PyDict [("error", PyStr "API failed.")])).
Proof.
  intros Hreply. rewrite reasoning_get_weather_run, Hreply. cbn [fst].
  fold reasoning_error_marker.
  split; [|split; [|split]].
  - apply tool_result_failed.
  - intros H200 d Hd. by rewrite tool_result_200, Hd.
  - intros H200 Hshape. rewrite tool_result_200 by done.
    destruct (json response) as [body|e]; [|by eexists].
    destruct body; try by eexists.
    by destruct (Hshape d).
  - intros Hmarker.
    destruct (decide (status_code response = 200)) as [H200|]; [right|by left].
    rewrite tool_result_200 in Hmarker by done.
    destruct (json response) as [body|e]; [|done].
    destruct body; try done.
    exists d. split; [done|].
    unfold dict_get in Hmarker.
    destruct (dict_lookup "current" d); [congruence|done].
Qed.

Lemma reasoning_get_weather_by_status_witness :
  (Reasoning.get_weather (sample_env (Ok service_unavailable) "")
     (PyFloat 48.8566) (PyFloat 2.3522) empty_world).1
    = Ok (PyDict [("error", PyStr "API failed.")]) ∧
  (Reasoning.get_weather (sample_env (Ok no_current) "")
     (PyFloat 48.8566) (PyFloat 2.3522) empty_world).1
    = Ok (PyDict []).
Proof.
  split.
  - apply (proj1 (reasoning_get_weather_by_status (sample_env (Ok service_unavailable) "")
                    (PyFloat 48.8566) (PyFloat 2.3522) empty_world service_unavailable
                    eq_refl)).
    simpl. lia.
  - apply (proj1 (proj2 (reasoning_get_weather_by_status (sample_env (Ok no_current) "")
                           (PyFloat 48.8566) (PyFloat 2.3522) empty_world no_current
                           eq_refl)) eq_refl _ eq_refl).
Defined.

(** ** When the saving step completes *)

(** A round of the loop that opens a directory is the last one. *)
Lemma write_all_open_directory docs m p :
  EvOpenW p ∈ (write_all docs m).2 → m !! p = Some Dir →
  (write_all docs m).1.1 = Raise IsADirectoryError ∧
  last (write_all docs m).2 = Some (EvOpenW p).
Proof.
  revert m. induction docs as [|[q t] docs IH]; intros m Hin Hp.
  - by apply elem_of_nil in Hin.
  - cbn [write_all] in *. specialize (IH (<[q := File t]> m)).
    destruct (write_all docs (<[q := File t]> m)) as [[r m'] evs].
    destruct (decide (p = q)) as [->|Hne].
    + rewrite Hp in *. cbn. split; [done|]. done.
    + assert (EvOpenW p ∈ evs) as Hrest.
      { destruct (m !! q) as [[c|]|]; cbn in Hin.
        - apply elem_of_cons in Hin as [[=]|Hin]; [done|].
          by apply elem_of_cons in Hin as [[=]|Hin].
        - apply elem_of_cons in Hin as [[=]|Hin]; [done|]. by apply elem_of_nil in Hin.
        - apply elem_of_cons in Hin as [[=]|Hin]; [done|].
          by apply elem_of_cons in Hin as [[=]|Hin]. }
      destruct IH as [Hr Hlast]; [done|by rewrite lookup_insert_ne|].
      cbn in Hr, Hlast.
      assert (last (EvOpenW q :: EvWrite q t :: evs) = Some (EvOpenW p)) as Hlast'.
      { destruct evs as [|e evs]; [done|]. exact Hlast. }
      destruct (m !! q) as [[c|]|]; cbn; try done.
      apply elem_of_cons in Hin as [[=]|Hin]; [done|]. by apply elem_of_nil in Hin.
Qed.

(** X14, lines 23-26: how the saving step fails on a node of the wrong kind.
    It completes only if [rag_docs] is not a regular file and none of the
    three document paths is a directory.  A regular file named [rag_docs]
    makes [os.makedirs] raise [FileExistsError] in spite of [exist_ok],
    before anything is opened or written; a run that gets to open a document
    path that is a directory ends at that call, with [IsADirectoryError]. *)
Theorem save_docs_outcome w :
  ((save_docs w).1 = Ok tt →
     (∀ c, fs w !! "rag_docs" ≠ Some (File c)) ∧
     (∀ p, p ∈ doc_files.*1 → fs w !! p ≠ Some Dir)) ∧
  (∀ c, fs w !! "rag_docs" = Some (File c) →
     save_docs w = (Raise FileExistsError, log (EvMakedirs "rag_docs") w)) ∧
  (∀ p, EvOpenW p ∈ new_events w (save_docs w).2 → fs w !! p = Some Dir →
     (save_docs w).1 = Raise IsADirectoryError ∧
     last (new_events w (save_docs w).2) = Some (EvOpenW p)).
Proof.
  split; [|split].
  - intros Hok.
    destruct (save_docs w) as [r w1] eqn:Hrun. cbn in Hok. subst r.
    split.
    + intros c Hc. rewrite save_docs_run, Hc in Hrun. done.
    + intros p Hp. by apply (save_docs_ok_no_directory w w1).
  - intros c Hc. by rewrite save_docs_run, Hc.
  - intros p. rewrite save_docs_run.
    destruct (fs w !! "rag_docs") as [[c|]|] eqn:Hdir.
    + cbn [fst snd]. rewrite new_events_log. intros Hin.
      by apply list_elem_of_singleton in Hin.
    + pose proof (write_all_open_directory doc_files (with_docs_dir (fs w)) p) as Hloop.
      destruct (write_all doc_files (with_docs_dir (fs w))) as [[r m] evs].
      cbn [fst snd] in *.
      rewrite (new_events_app w _ (EvMakedirs "rag_docs" :: evs)) by done.
      intros Hin Hp. apply elem_of_cons in Hin as [[=]|Hin].
      destruct Hloop as [-> Hlast]; [done| |].
      * unfold with_docs_dir. by rewrite Hdir.
      * split; [done|]. by destruct evs.
    + pose proof (write_all_open_directory doc_files (with_docs_dir (fs w)) p) as Hloop.
      destruct (write_all doc_files (with_docs_dir (fs w))) as [[r m] evs].
      cbn [fst snd] in *.
      rewrite (new_events_app w _ (EvMakedirs "rag_docs" :: evs)) by done.
      intros Hin Hp. apply elem_of_cons in Hin as [[=]|Hin].
      destruct Hloop as [-> Hlast]; [done| |].
      * rewrite with_docs_dir_other; [done|]. intros ->. congruence.
      * split; [done|]. by destruct evs.
Qed.

Lemma save_docs_outcome_witness :
  save_docs (mkWorld {["rag_docs" := File "notes"]} [])
    = (Raise FileExistsError, mkWorld {["rag_docs" := File "notes"]} [EvMakedirs "rag_docs"]) ∧
  (save_docs world_with_directory_for_document).1 = Raise IsADirectoryError ∧
  file_writes (trace (save_docs world_with_directory_for_document).2)
    = [("rag_docs/doc_0.txt", "In Paris, it's best to carry an umbrella in spring.")].
Proof.
  split; [|split].
  - rewrite (proj1 (proj2 (save_docs_outcome (mkWorld {["rag_docs" := File "notes"]} [])))
               "notes"); reflexivity.
  - apply (proj2 (proj2 (save_docs_outcome world_with_directory_for_document))
             "rag_docs/doc_1.txt").
    + assert (new_events world_with_directory_for_document
                (save_docs world_with_directory_for_document).2
              = [EvMakedirs "rag_docs"; EvOpenW "rag_docs/doc_0.txt";
                 EvWrite "rag_docs/doc_0.txt"
                   "In Paris, it's best to carry an umbrella in spring.";
                 EvOpenW "rag_docs/doc_1.txt"]) as -> by (vm_compute; reflexivity).
      rewrite !elem_of_cons. auto.
    + reflexivity.
  - vm_compute. reflexivity.
Defined.

(** ** What is embedded *)

(** X15, lines 23-40: what reaches the vector database.  When the saving step
    completes in a directory that holds nothing but the documents, the first
    service call of step 2 is [Chroma.from_documents] on what the splitter,
    with chunk size 300 and overlap 50, makes of the three tips, for the
    database persisted in [./chroma_db] with the [llama3] embeddings. *)
Theorem tips_are_embedded E w w1 :
  save_docs w = (Ok tt, w1) → only_docs_in_rag_docs (fs w) →
  ∃ all_docs rest,
    all_docs ≡ₚ tip_documents ∧
    service_calls (new_events w (step2 E w).2) =
      EvFromDocuments (split_documents E 300 50 all_docs)
        (mkChroma "./chroma_db" (mkOllamaEmbeddings "llama3")) :: rest.
Proof.
  intros Hsave Honly.
  destruct (saved_listing w w1 Hsave Honly) as (Hdir & Hfiles & Hperm).
  pose proof (load_and_split_ok E w1 Hdir Hfiles) as Hload.
  eexists. 
  destruct (prepare_fs_events E w) as (local & Htrace & Hlocal).
  pose proof (fun rest => proj1 (proj2 (after_fs_events local rest Hlocal))) as Hafter.
  rewrite step2_unfold.
  assert ((prepare E w).1 = (load_and_split E w1).1) as Hprepare.
  { by rewrite prepare_unfold, Hsave. }
  rewrite Hload in Hprepare.
  destruct (prepare E w) as [r w2]. cbn [fst snd] in *. subst r.
  rewrite embed_and_persist_run. cbn zeta.
  destruct (chroma_from_documents E _ _ _) as [[]|e];
    [destruct (chroma_persist E _ _) as [[]|e]|].
  all: eexists.
  all: list_run_events Htrace.
  all: rewrite Hafter.
  all: split; [exact Hperm|reflexivity].
Qed.

Lemma tips_are_embedded_witness :
  ∃ all_docs rest,
    all_docs ≡ₚ tip_documents ∧
    service_calls (new_events empty_world (step2 (sample_env (Ok paris_weather) "") empty_world).2)
      = EvFromDocuments all_docs vectordb :: rest.
Proof.
  apply (tips_are_embedded (sample_env (Ok paris_weather) "") empty_world
           (save_docs empty_world).2).
  - reflexivity.
  - apply (bool_decide_unpack _). by vm_compute.
Defined.
